(** * Recintos do zoológico: a shallow embedding of [recintos-zoo.js]

    The development follows the two halves of the source file: the animal
    batches ([LoteAnimal] and its subclasses, [FabricaLoteAnimais]) and the
    enclosures ([Recinto], [RecintosZoo]).

    Modelling choices.
    - A JavaScript value that crosses the public interface is a [Js.Value];
      [Js.typeof] gives the tag the source tests.
    - A JavaScript number is a rational [Q] with exact arithmetic: every
      number the program builds from its integer tables and from a count
      such as [2.5] is computed exactly by the double arithmetic too.  [NaN]
      and the infinities are not represented.  [==], [<=] and [>=] on numbers
      are [Qeq_bool] and [Qle_bool].
    - [Set] of species names is a [gset string]; arrays are lists.
    - A class instance is a record that carries its class tag; a virtual
      call dispatches on the tag.
    - Methods that assign to [this] are state transformers; the methods of
      [RecintosZoo] run in a state monad over the zoo object; a [TypeError]
      thrown by a call on a value that has no such method is [None]. *)

From Stdlib Require Import Ascii QArith Lqa.
From stdpp Require Import gmap strings list pretty.

Local Open Scope Q_scope.

(** ** JavaScript values and the built-ins the program calls *)

Module Js.

Inductive Value : Type :=
| Undefined
| Null
| Boolean (b : bool)
| Number (q : Q)
| BigInt (z : Z)
| Str (s : string)
| Symbol
| Object
| Function.

(** The [typeof] operator. *)
Definition typeof (v : Value) : string :=
  match v with
  | Undefined => "undefined"
  | Null => "object"
  | Boolean _ => "boolean"
  | Number _ => "number"
  | BigInt _ => "bigint"
  | Str _ => "string"
  | Symbol => "symbol"
  | Object => "object"
  | Function => "function"
  end.

(** [String.prototype.toUpperCase] on the ASCII letters; other bytes are
    kept as they are. *)
Definition toUpperCaseAscii (c : ascii) : ascii :=
  let n := nat_of_ascii c in
  if bool_decide (97 ≤ n)%nat && bool_decide (n ≤ 122)%nat
  then ascii_of_nat (n - 32)
  else c.

Fixpoint toUpperCase (s : string) : string :=
  match s with
  | EmptyString => EmptyString
  | String c rest => String (toUpperCaseAscii c) (toUpperCase rest)
  end.

(** [Array.prototype.includes] on an array of strings. *)
Definition includes (arr : list string) (x : string) : bool :=
  bool_decide (x ∈ arr).

(** [Set.prototype.has] on a set of strings: a value that is not a string
    is never a member. *)
Definition has (set : gset string) (v : Value) : bool :=
  match v with
  | Str s => bool_decide (s ∈ set)
  | _ => false
  end.

(** Conversion of a number to a string, as string concatenation does it:
    the decimal digits of the integer part and, for a number with a
    fractional part, the digits of its finite decimal expansion. *)
Fixpoint casasDecimais (n : nat) (resto den : Z) : string :=
  match n with
  | O => ""
  | S n' =>
      if bool_decide (resto = 0)%Z then ""
      else pretty (10 * resto / den)%Z
             +:+ casasDecimais n' (10 * resto mod den)%Z den
  end.

Definition numberToString (q : Q) : string :=
  let num := Z.abs (Qnum q) in
  let den := Zpos (Qden q) in
  (if bool_decide (Qnum q < 0)%Z then "-" else "")
    +:+ pretty (num / den)%Z
    +:+ (if bool_decide (num mod den = 0)%Z then ""
         else "." +:+ casasDecimais (Z.to_nat (Z.log2_up den)) (num mod den)%Z den).

End Js.

(** ** Animal batches: the data of [LoteAnimal] and of its subclasses *)

Module LoteAnimal.

(** The class of the object, which decides the method a call reaches. *)
Inductive Classe : Type :=
| LoteAnimal
| LoteAnimalCarnivoro
| Leao
| Leopardo
| Crocodilo
| Macaco
| Gazela
| Hipopotamo.

Global Instance Classe_eq_dec : EqDecision Classe.
Proof. solve_decision. Defined.

Record t : Type := novo {
  classe : Classe;
  especie : string;
  tamanho : Q;
  biomas : list string;
  qtdeLote : Q
}.

(** [isCarnivoro]: [false] in [LoteAnimal], overridden to [true] in
    [LoteAnimalCarnivoro], which [Leao], [Leopardo] and [Crocodilo]
    extend. *)
Definition isCarnivoro (this : t) : bool :=
  match classe this with
  | LoteAnimalCarnivoro | Leao | Leopardo | Crocodilo => true
  | LoteAnimal | Macaco | Gazela | Hipopotamo => false
  end.

(** The [for] loop of [verificaBiomaAdequado] over [this.biomas]. *)
Fixpoint verificaBiomaAdequado_desde (biomas biomasRecinto : list string) : bool :=
  match biomas with
  | [] => false
  | bioma :: resto =>
      if Js.includes biomasRecinto bioma then true
      else verificaBiomaAdequado_desde resto biomasRecinto
  end.

Definition verificaBiomaAdequado (this : t) (biomasRecinto : list string) : bool :=
  verificaBiomaAdequado_desde (biomas this) biomasRecinto.

Definition verificaEspacoSuficente (this : t) (espacoDisponivel : Q) : bool :=
  Qle_bool (qtdeLote this * tamanho this) espacoDisponivel.

(** The getter [tamanhoLote]. *)
Definition tamanhoLote (this : t) : Q :=
  tamanho this * qtdeLote this.

(** [Hipopotamo.toleraOutrasEspecies]. *)
Definition toleraOutrasEspecies (biomasRecinto : list string) : bool :=
  Js.includes biomasRecinto "savana" && Js.includes biomasRecinto "rio".

(** The constructors of the six species. *)
Definition novoLeao (qtdeLote : Q) : t :=
  novo Leao "LEAO" 3 ["savana"] qtdeLote.
Definition novoLeopardo (qtdeLote : Q) : t :=
  novo Leopardo "LEOPARDO" 2 ["savana"] qtdeLote.
Definition novoCrocodilo (qtdeLote : Q) : t :=
  novo Crocodilo "CROCODILO" 3 ["rio"] qtdeLote.
Definition novoMacaco (qtdeLote : Q) : t :=
  novo Macaco "MACACO" 1 ["savana"; "floresta"] qtdeLote.
Definition novoGazela (qtdeLote : Q) : t :=
  novo Gazela "GAZELA" 2 ["savana"] qtdeLote.
Definition novoHipopotamo (qtdeLote : Q) : t :=
  novo Hipopotamo "HIPOPOTAMO" 4 ["savana"; "rio"] qtdeLote.

End LoteAnimal.

(** ** [FabricaLoteAnimais] *)

Module FabricaLoteAnimais.

(** [geraLote] returns a batch or the text of an error. *)
Definition geraLote (especie qtdeLote : Js.Value) : LoteAnimal.t + string :=
  match especie with
  | Js.Str nome =>
      match qtdeLote with
      | Js.Number quantidade =>
          if Qle_bool quantidade 0 then inr "Quantidade inválida"
          else
            let maiuscula := Js.toUpperCase nome in
            if bool_decide (maiuscula = "LEAO") then
              inl (LoteAnimal.novoLeao quantidade)
            else if bool_decide (maiuscula = "LEOPARDO") then
              inl (LoteAnimal.novoLeopardo quantidade)
            else if bool_decide (maiuscula = "CROCODILO") then
              inl (LoteAnimal.novoCrocodilo quantidade)
            else if bool_decide (maiuscula = "MACACO") then
              inl (LoteAnimal.novoMacaco quantidade)
            else if bool_decide (maiuscula = "GAZELA") then
              inl (LoteAnimal.novoGazela quantidade)
            else if bool_decide (maiuscula = "HIPOPOTAMO") then
              inl (LoteAnimal.novoHipopotamo quantidade)
            else inr "Animal inválido"
      | _ => inr "Quantidade inválida"
      end
  | _ => inr "Animal inválido"
  end.

End FabricaLoteAnimais.

(** ** Enclosures *)

Module Recinto.

Record t : Type := mk {
  id : Q;
  biomas : list string;
  tamanhoTotal : Q;
  tamanhoOcupado : Q;
  animaisExistentes : list LoteAnimal.t;
  listaEspecies : gset string;
  flagContemCarnivoros : bool
}.

Definition com_tamanhoOcupado (ocupado : Q) (this : t) : t :=
  mk (id this) (biomas this) (tamanhoTotal this) ocupado
     (animaisExistentes this) (listaEspecies this) (flagContemCarnivoros this).

Definition temOutrasEspecies (this : t) (especie : Js.Value) : bool :=
  bool_decide (1 < size (listaEspecies this))%nat
  || (bool_decide (size (listaEspecies this) = 1%nat)
      && negb (Js.has (listaEspecies this) especie)).

Definition getEspacoDisponivel (this : t) (especie : Js.Value) : Q :=
  let espacoRestante := tamanhoTotal this - tamanhoOcupado this in
  if temOutrasEspecies this especie then espacoRestante - 1
  else espacoRestante.

(** [estaConfortavel] of the base class [LoteAnimal]. *)
Definition estaConfortavel_LoteAnimal (lote : LoteAnimal.t) (recinto : t) : bool :=
  let espacoDisponivel := getEspacoDisponivel recinto (Js.Str (LoteAnimal.especie lote)) in
  if LoteAnimal.verificaBiomaAdequado lote (biomas recinto)
     && LoteAnimal.verificaEspacoSuficente lote espacoDisponivel
  then true
  else false.

(** The override in [Macaco]. *)
Definition estaConfortavel_Macaco (lote : LoteAnimal.t) (recinto : t) : bool :=
  let espacoDisponivel := getEspacoDisponivel recinto (Js.Str (LoteAnimal.especie lote)) in
  if LoteAnimal.verificaBiomaAdequado lote (biomas recinto)
     && LoteAnimal.verificaEspacoSuficente lote espacoDisponivel
  then
    if Qeq_bool (LoteAnimal.qtdeLote lote) 1
       && Qeq_bool espacoDisponivel (tamanhoTotal recinto)
    then false
    else true
  else false.

(** The override in [Hipopotamo]. *)
Definition estaConfortavel_Hipopotamo (lote : LoteAnimal.t) (recinto : t) : bool :=
  let espacoDisponivel := getEspacoDisponivel recinto (Js.Str (LoteAnimal.especie lote)) in
  if LoteAnimal.verificaBiomaAdequado lote (biomas recinto)
     && LoteAnimal.verificaEspacoSuficente lote espacoDisponivel
  then
    if temOutrasEspecies recinto (Js.Str (LoteAnimal.especie lote))
    then LoteAnimal.toleraOutrasEspecies (biomas recinto)
    else true
  else false.

(** The virtual call [lote.estaConfortavel(recinto)]. *)
Definition estaConfortavel (lote : LoteAnimal.t) (recinto : t) : bool :=
  match LoteAnimal.classe lote with
  | LoteAnimal.Macaco => estaConfortavel_Macaco lote recinto
  | LoteAnimal.Hipopotamo => estaConfortavel_Hipopotamo lote recinto
  | _ => estaConfortavel_LoteAnimal lote recinto
  end.

Definition consegueAcomodarLote (this : t) (loteAnimais : LoteAnimal.t) : bool :=
  if negb (estaConfortavel loteAnimais this) then false
  else if bool_decide ("HIPOPOTAMO" ∈ listaEspecies this)
          && bool_decide (LoteAnimal.especie loteAnimais ≠ "HIPOPOTAMO")
          && (negb (Js.includes (biomas this) "rio")
              || negb (Js.includes (biomas this) "savana"))
  then false
  else if (flagContemCarnivoros this
           && negb (bool_decide (LoteAnimal.especie loteAnimais ∈ listaEspecies this)))
          || (LoteAnimal.isCarnivoro loteAnimais
              && negb (flagContemCarnivoros this)
              && bool_decide (0 < size (listaEspecies this))%nat)
  then false
  else true.

(** [adicionaLoteAnimais] assigns to [this]: the result is the enclosure
    after the call. *)
Definition adicionaLoteAnimais (loteAnimais : LoteAnimal.t) (this : t) : t :=
  if consegueAcomodarLote this loteAnimais then
    mk (id this) (biomas this) (tamanhoTotal this)
       (tamanhoOcupado this + LoteAnimal.tamanhoLote loteAnimais)
       (animaisExistentes this ++ [loteAnimais])
       ({[ LoteAnimal.especie loteAnimais ]} ∪ listaEspecies this)
       (if LoteAnimal.isCarnivoro loteAnimais then true
        else flagContemCarnivoros this)
  else this.

(** The [forEach] of the constructor.  An element that is not a batch (the
    factory returned an error text) has no [estaConfortavel] method: the
    call throws. *)
Fixpoint adicionaTodos (animais : list (LoteAnimal.t + string)) (this : t) : option t :=
  match animais with
  | [] => Some this
  | inl lote :: resto => adicionaTodos resto (adicionaLoteAnimais lote this)
  | inr _ :: _ => None
  end.

(** The constructor; [animaisPreExistentes] is [None] when the argument is
    left out ([undefined]). *)
Definition construtor (id : Q) (biomas : list string) (tamanhoTotal : Q)
    (animaisPreExistentes : option (list (LoteAnimal.t + string))) : option t :=
  let this := mk id biomas tamanhoTotal 0 [] ∅ false in
  match animaisPreExistentes with
  | Some animais => adicionaTodos animais this
  | None => Some this
  end.

End Recinto.

(** ** The state monad of the methods of [RecintosZoo] *)

Definition Estado (S A : Type) : Type := S → A * S.

Global Instance Estado_ret {S} : MRet (Estado S) := λ A x s, (x, s).
Global Instance Estado_bind {S} : MBind (Estado S) :=
  λ A B f m s, let '(a, s') := m s in f a s'.

Definition obtem {S A} (f : S → A) : Estado S A := λ s, (f s, s).
Definition altera {S} (f : S → S) : Estado S () := λ s, ((), f s).

(** [array.forEach(callback)] where the callback updates a local variable
    of the caller, passed along as the accumulator. *)
Fixpoint forEach {S A B} (arr : list A) (callback : A → B → Estado S B) (acc : B)
    : Estado S B :=
  match arr with
  | [] => mret acc
  | x :: resto => acc' ← callback x acc; forEach resto callback acc'
  end.

(** ** The zoo *)

Module RecintosZoo.

Record t : Type := mk { listaRecintos : list Recinto.t }.

(** The object literals returned to the caller. *)
Inductive Saida : Type :=
| Erro (erro : string)
| RecintosViaveis (recintosViaveis : list string).

(** An entry of the local array [recintosViaveis] of [analisaRecintos]. *)
Record Opcao : Type := opcao { recinto : Recinto.t; espacoLivre : Q }.

(** [listaRecintos.push(new Recinto(...))]: the construction can throw. *)
Definition push (novoRecinto : option Recinto.t) (this : option t) : option t :=
  this ← this;
  novoRecinto ← novoRecinto;
  Some (mk (listaRecintos this ++ [novoRecinto])).

Definition inicializaRecintos (this : option t) : option t :=
  let this := push (Recinto.construtor 1 ["savana"] 10
    (Some [FabricaLoteAnimais.geraLote (Js.Str "MACACO") (Js.Number 3)])) this in
  let this := push (Recinto.construtor 2 ["floresta"] 5 None) this in
  let this := push (Recinto.construtor 3 ["savana"; "rio"] 7
    (Some [FabricaLoteAnimais.geraLote (Js.Str "GAZELA") (Js.Number 1)])) this in
  let this := push (Recinto.construtor 4 ["rio"] 8 None) this in
  let this := push (Recinto.construtor 5 ["savana"] 9
    (Some [FabricaLoteAnimais.geraLote (Js.Str "LEAO") (Js.Number 1)])) this in
  this.

Definition construtor : option t :=
  inicializaRecintos (Some (mk [])).

Definition geraSaidaErro (causa : string) : Saida := Erro causa.

Definition geraSaidaEsperada (listaRecintosViaveis : list Opcao) : Saida :=
  RecintosViaveis
    (map (λ opcao,
            "Recinto " +:+ Js.numberToString (Recinto.id (recinto opcao))
            +:+ " (espaço livre: " +:+ Js.numberToString (espacoLivre opcao)
            +:+ " total: " +:+ Js.numberToString (Recinto.tamanhoTotal (recinto opcao))
            +:+ ")")
         listaRecintosViaveis).

(** The callback of the [forEach] in [analisaRecintos]. *)
Definition avaliaRecinto (animal : Js.Value) (novoLote : LoteAnimal.t)
    (recinto : Recinto.t) (recintosViaveis : list Opcao) : Estado t (list Opcao) :=
  if Recinto.consegueAcomodarLote recinto novoLote then
    let espacoDisponivel := Recinto.getEspacoDisponivel recinto animal in
    mret (recintosViaveis
            ++ [opcao recinto (espacoDisponivel - LoteAnimal.tamanhoLote novoLote)])
  else mret recintosViaveis.

Definition analisaRecintos (animal quantidade : Js.Value) : Estado t Saida :=
  match FabricaLoteAnimais.geraLote animal quantidade with
  | inr mensagem => mret (geraSaidaErro mensagem)
  | inl novoLote =>
      recintos ← obtem listaRecintos;
      recintosViaveis ← forEach recintos (avaliaRecinto animal novoLote) [];
      if bool_decide (0 < length recintosViaveis)%nat
      then mret (geraSaidaEsperada recintosViaveis)
      else mret (geraSaidaErro "Não há recinto viável")
  end.

End RecintosZoo.

(** ** The seed data, written out

    The five enclosures as [inicializaRecintos] leaves them (lemma
    [construtor_zooInicial] below). *)

Definition recinto1 : Recinto.t :=
  Recinto.mk 1 ["savana"] 10 3 [LoteAnimal.novoMacaco 3] {[ "MACACO" ]} false.
Definition recinto2 : Recinto.t :=
  Recinto.mk 2 ["floresta"] 5 0 [] ∅ false.
Definition recinto3 : Recinto.t :=
  Recinto.mk 3 ["savana"; "rio"] 7 2 [LoteAnimal.novoGazela 1] {[ "GAZELA" ]} false.
Definition recinto4 : Recinto.t :=
  Recinto.mk 4 ["rio"] 8 0 [] ∅ false.
Definition recinto5 : Recinto.t :=
  Recinto.mk 5 ["savana"] 9 3 [LoteAnimal.novoLeao 1] {[ "LEAO" ]} true.

Definition zooInicial : RecintosZoo.t :=
  RecintosZoo.mk [recinto1; recinto2; recinto3; recinto4; recinto5].

(** Two more enclosures for the examples: one that holds a hippopotamus and
    has both of its habitats, and a savanna that holds a gazelle. *)
Definition recintoComHipopotamo : Recinto.t :=
  Recinto.mk 6 ["savana"; "rio"] 10 4 [LoteAnimal.novoHipopotamo 1] {[ "HIPOPOTAMO" ]} false.
Definition savanaComGazela : Recinto.t :=
  Recinto.mk 7 ["savana"] 10 2 [LoteAnimal.novoGazela 1] {[ "GAZELA" ]} false.

(** ** Vocabulary of the specification *)

(** The text returned by [analisaRecintos], state dropped. *)
Definition resposta (animal quantidade : Js.Value) (zoo : RecintosZoo.t) : RecintosZoo.Saida :=
  (RecintosZoo.analisaRecintos animal quantidade zoo).1.

(** The viable set: the enclosures that accept the batch, in
    registration order, each with the space left after the admission. *)
Definition viaveis (animal : Js.Value) (lote : LoteAnimal.t) (recintos : list Recinto.t)
    : list RecintosZoo.Opcao :=
  map (λ recinto,
         RecintosZoo.opcao recinto
           (Recinto.getEspacoDisponivel recinto animal - LoteAnimal.tamanhoLote lote))
      (filter (λ recinto, Recinto.consegueAcomodarLote recinto lote = true) recintos).

(** An enclosure is in the viable set when one of the collected entries
    refers to it. *)
Definition viavel (animal : Js.Value) (lote : LoteAnimal.t) (recintos : list Recinto.t)
    (recinto : Recinto.t) : Prop :=
  ∃ espacoLivre, RecintosZoo.opcao recinto espacoLivre ∈ viaveis animal lote recintos.

(** An enclosure turned down because none of its habitats suits the batch. *)
Definition rejeitadoPorBioma (lote : LoteAnimal.t) (recinto : Recinto.t) : Prop :=
  LoteAnimal.verificaBiomaAdequado lote (Recinto.biomas recinto) = false
  ∧ Recinto.consegueAcomodarLote recinto lote = false.

(** An enclosure where the batch would be comfortable, turned down because
    it holds carnivores of another species. *)
Definition rejeitadoPorCarnivoro (lote : LoteAnimal.t) (recinto : Recinto.t) : Prop :=
  Recinto.estaConfortavel lote recinto = true
  ∧ Recinto.flagContemCarnivoros recinto = true
  ∧ (LoteAnimal.especie lote ∉ Recinto.listaEspecies recinto)
  ∧ Recinto.consegueAcomodarLote recinto lote = false.

(** A count that is a positive integer. *)
Definition inteiroPositivo (v : Js.Value) : Prop :=
  ∃ (q : Q) (n : positive), v = Js.Number q ∧ (q == inject_Z (Z.pos n)).

(** A count the factory turns down: not a number, or a number [<= 0]. *)
Definition quantidadeRecusada (v : Js.Value) : Prop :=
  Js.typeof v ≠ "number" ∨ ∃ q : Q, v = Js.Number q ∧ q <= 0.

(** "Other species present", in the words of the specification: the set of
    resident species has more than one member, or exactly one member and
    that member differs from the given species. *)
Definition outraEspeciePresente (recinto : Recinto.t) (especie : string) : Prop :=
  (1 < size (Recinto.listaEspecies recinto))%nat
  ∨ (size (Recinto.listaEspecies recinto) = 1%nat
     ∧ ∃ residente, residente ∈ Recinto.listaEspecies recinto ∧ residente ≠ especie).

(** The default comfort rule, in the words of the specification. *)
Definition confortoPadrao (lote : LoteAnimal.t) (recinto : Recinto.t) : Prop :=
  (∃ bioma, bioma ∈ LoteAnimal.biomas lote ∧ bioma ∈ Recinto.biomas recinto)
  ∧ LoteAnimal.tamanho lote * LoteAnimal.qtdeLote lote
    <= Recinto.getEspacoDisponivel recinto (Js.Str (LoteAnimal.especie lote)).

(** A single monkey in front of an enclosure whose free space is its whole
    capacity: the case the override of [Macaco] turns down. *)
Definition macacoSozinho (lote : LoteAnimal.t) (recinto : Recinto.t) : Prop :=
  LoteAnimal.classe lote = LoteAnimal.Macaco
  ∧ (LoteAnimal.qtdeLote lote == 1)
  ∧ (Recinto.getEspacoDisponivel recinto (Js.Str (LoteAnimal.especie lote))
     == Recinto.tamanhoTotal recinto).

(** A computation of the state monad that only reads. *)
Definition soLeitura {S A} (m : Estado S A) : Prop := ∀ s, (m s).2 = s.

(** The test shared by the three versions of [estaConfortavel]: a suitable
    habitat and enough room. *)
Definition cabe (lote : LoteAnimal.t) (recinto : Recinto.t) : bool :=
  LoteAnimal.verificaBiomaAdequado lote (Recinto.biomas recinto)
  && LoteAnimal.verificaEspacoSuficente lote
       (Recinto.getEspacoDisponivel recinto (Js.Str (LoteAnimal.especie lote))).

(** ** Batches of the factory, enclosures the program can build *)


(** A batch as the factory builds it: an instance of one of the six
    species classes with a count [> 0]. *)
Definition doCatalogo (lote : LoteAnimal.t) : Prop :=
  ∃ q, 0 < q
       ∧ lote ∈ [LoteAnimal.novoLeao q; LoteAnimal.novoLeopardo q;
                 LoteAnimal.novoCrocodilo q; LoteAnimal.novoMacaco q;
                 LoteAnimal.novoGazela q; LoteAnimal.novoHipopotamo q].

(** The state of a new enclosure, before the constructor adds a batch. *)
Definition recintoVazio (id : Q) (biomas : list string) (tamanhoTotal : Q) : Recinto.t :=
  Recinto.mk id biomas tamanhoTotal 0 [] ∅ false.

(** The enclosures that the constructor followed by calls of
    [adicionaLoteAnimais] can produce, with batches that satisfy [P]. *)
Inductive alcancavel (P : LoteAnimal.t → Prop) : Recinto.t → Prop :=
| alcancavel_vazio id biomas tamanhoTotal :
    alcancavel P (recintoVazio id biomas tamanhoTotal)
| alcancavel_adiciona lote recinto :
    P lote → alcancavel P recinto →
    alcancavel P (Recinto.adicionaLoteAnimais lote recinto).

(** The same batch with another count. *)
Definition com_qtdeLote (qtdeLote : Q) (lote : LoteAnimal.t) : LoteAnimal.t :=
  LoteAnimal.novo (LoteAnimal.classe lote) (LoteAnimal.especie lote)
    (LoteAnimal.tamanho lote) (LoteAnimal.biomas lote) qtdeLote.

(** The space the resident batches take, added up. *)
Definition somaTamanhos (lotes : list LoteAnimal.t) : Q :=
  foldr (λ lote soma, LoteAnimal.tamanhoLote lote + soma) 0 lotes.

(** The three derived fields of an enclosure agree with its list of
    resident batches. *)
Definition registrosEmDia (recinto : Recinto.t) : Prop :=
  Recinto.listaEspecies recinto
  = list_to_set (LoteAnimal.especie <$> Recinto.animaisExistentes recinto)
  ∧ (Recinto.tamanhoOcupado recinto == somaTamanhos (Recinto.animaisExistentes recinto))
  ∧ (Recinto.flagContemCarnivoros recinto = true
     ↔ ∃ lote, lote ∈ Recinto.animaisExistentes recinto
               ∧ LoteAnimal.isCarnivoro lote = true).

(** * Properties *)

(** ** The seed data *)

Lemma construtor_zooInicial : RecintosZoo.construtor = Some zooInicial.
Proof. vm_compute. reflexivity. Qed.

Lemma construtor_recintoComHipopotamo :
  Recinto.construtor 6 ["savana"; "rio"] 10
    (Some [FabricaLoteAnimais.geraLote (Js.Str "HIPOPOTAMO") (Js.Number 1)])
  = Some recintoComHipopotamo.
Proof. vm_compute. reflexivity. Qed.

Lemma construtor_savanaComGazela :
  Recinto.construtor 7 ["savana"] 10
    (Some [FabricaLoteAnimais.geraLote (Js.Str "GAZELA") (Js.Number 1)])
  = Some savanaComGazela.
Proof. vm_compute. reflexivity. Qed.

(** ** The state monad: a computation that only reads *)
Lemma soLeitura_mret {S A} (x : A) : soLeitura (mret x : Estado S A).
Proof. intros s. reflexivity. Qed.

Lemma soLeitura_obtem {S A} (f : S → A) : soLeitura (obtem f).
Proof. intros s. reflexivity. Qed.

Lemma soLeitura_bind {S A B} (m : Estado S A) (k : A → Estado S B) :
  soLeitura m → (∀ a, soLeitura (k a)) → soLeitura (m ≫= k).
Proof.
  intros Hm Hk s. unfold mbind, Estado_bind.
  specialize (Hm s). destruct (m s) as [a s']. simpl in Hm. subst s'.
  apply Hk.
Qed.

Lemma soLeitura_forEach {S A B} (arr : list A) (callback : A → B → Estado S B) :
  (∀ x acc, soLeitura (callback x acc)) → ∀ acc, soLeitura (forEach arr callback acc).
Proof.
  intros Hcb. induction arr as [|x resto IH]; intros acc; simpl.
  - apply soLeitura_mret.
  - apply soLeitura_bind; [apply Hcb | exact IH].
Qed.

Lemma soLeitura_avaliaRecinto animal novoLote recinto acc :
  soLeitura (RecintosZoo.avaliaRecinto animal novoLote recinto acc).
Proof.
  unfold RecintosZoo.avaliaRecinto.
  destruct (Recinto.consegueAcomodarLote recinto novoLote); apply soLeitura_mret.
Qed.

Lemma soLeitura_analisaRecintos animal quantidade :
  soLeitura (RecintosZoo.analisaRecintos animal quantidade).
Proof.
  unfold RecintosZoo.analisaRecintos.
  destruct (FabricaLoteAnimais.geraLote animal quantidade) as [novoLote|mensagem];
    [|apply soLeitura_mret].
  apply soLeitura_bind; [apply soLeitura_obtem|]. intros recintos.
  apply soLeitura_bind.
  - apply soLeitura_forEach. intros; apply soLeitura_avaliaRecinto.
  - intros vs. case_bool_decide; apply soLeitura_mret.
Qed.

(** ** What the loop of [analisaRecintos] collects *)

Lemma forEach_avaliaRecinto animal novoLote recintos acc zoo :
  (forEach recintos (RecintosZoo.avaliaRecinto animal novoLote) acc zoo).1
  = acc ++ viaveis animal novoLote recintos.
Proof.
  revert acc. induction recintos as [|r resto IH]; intros acc; simpl.
  - unfold viaveis. simpl. by rewrite app_nil_r.
  - unfold mbind, Estado_bind, RecintosZoo.avaliaRecinto at 1.
    unfold viaveis. rewrite filter_cons.
    destruct (Recinto.consegueAcomodarLote r novoLote) eqn:Hr; simpl.
    + rewrite IH. unfold viaveis. by rewrite <- app_assoc.
    + by rewrite IH.
Qed.

Lemma resposta_lote animal quantidade novoLote zoo :
  FabricaLoteAnimais.geraLote animal quantidade = inl novoLote →
  resposta animal quantidade zoo
  = let recintosViaveis := viaveis animal novoLote (RecintosZoo.listaRecintos zoo) in
    if bool_decide (0 < length recintosViaveis)%nat
    then RecintosZoo.geraSaidaEsperada recintosViaveis
    else RecintosZoo.geraSaidaErro "Não há recinto viável".
Proof.
  intros Hlote. unfold resposta, RecintosZoo.analisaRecintos. rewrite Hlote.
  unfold mbind, Estado_bind, obtem. simpl.
  pose proof (forEach_avaliaRecinto animal novoLote (RecintosZoo.listaRecintos zoo) [] zoo) as H.
  destruct (forEach _ _ _ _) as [vs zoo']. simpl in H. subst vs.
  by case_bool_decide.
Qed.

Lemma resposta_erro animal quantidade mensagem zoo :
  FabricaLoteAnimais.geraLote animal quantidade = inr mensagem →
  resposta animal quantidade zoo = RecintosZoo.Erro mensagem.
Proof.
  intros Herro. unfold resposta, RecintosZoo.analisaRecintos. by rewrite Herro.
Qed.

(** ** The factory: which arguments it turns down *)

Lemma typeof_string v : Js.typeof v = "string" ↔ ∃ s, v = Js.Str s.
Proof.
  split; [|by intros [s ->]].
  destruct v; simpl; intros H; try discriminate H. by eexists.
Qed.

Lemma typeof_number v : Js.typeof v = "number" ↔ ∃ q, v = Js.Number q.
Proof.
  split; [|by intros [q ->]].
  destruct v; simpl; intros H; try discriminate H. by eexists.
Qed.

Lemma geraLote_animal_invalido especie qtdeLote :
  Js.typeof especie ≠ "string" →
  FabricaLoteAnimais.geraLote especie qtdeLote = inr "Animal inválido".
Proof. destruct especie; simpl; intros H; try reflexivity. by destruct H. Qed.

Lemma geraLote_quantidade_invalida nome qtdeLote :
  quantidadeRecusada qtdeLote →
  FabricaLoteAnimais.geraLote (Js.Str nome) qtdeLote = inr "Quantidade inválida".
Proof.
  intros [Htipo | (q & -> & Hq)]; simpl.
  - destruct qtdeLote; try reflexivity. by destruct Htipo.
  - apply Qle_bool_iff in Hq. by rewrite Hq.
Qed.

(** A positive number is accepted as a count: the factory answers with a
    batch of that count or with "Animal inválido". *)
Lemma geraLote_quantidade_positiva nome q :
  0 < q →
  (∃ lote, FabricaLoteAnimais.geraLote (Js.Str nome) (Js.Number q) = inl lote
           ∧ LoteAnimal.qtdeLote lote = q)
  ∨ FabricaLoteAnimais.geraLote (Js.Str nome) (Js.Number q) = inr "Animal inválido".
Proof.
  intros Hq. simpl.
  destruct (Qle_bool q 0) eqn:Hle.
  { apply Qle_bool_iff in Hle. lra. }
  repeat case_bool_decide; eauto.
Qed.

(** ** C1: three monkeys against the seed data *)

(** C1, as the specification words it (enclosure 1 left with 6 free units,
    enclosure 3 with 2, enclosure 2 turned down for its habitat), does not
    hold: the answer lists neither of the two texts. *)
Lemma seed_tres_macacos_as_stated_fails :
  ¬ ∃ recintosViaveis,
      resposta (Js.Str "MACACO") (Js.Number 3) zooInicial
      = RecintosZoo.RecintosViaveis recintosViaveis
      ∧ "Recinto 1 (espaço livre: 6 total: 10)" ∈ recintosViaveis
      ∧ "Recinto 3 (espaço livre: 2 total: 7)" ∈ recintosViaveis
      ∧ rejeitadoPorBioma (LoteAnimal.novoMacaco 3) recinto2
      ∧ rejeitadoPorBioma (LoteAnimal.novoMacaco 3) recinto4
      ∧ rejeitadoPorCarnivoro (LoteAnimal.novoMacaco 3) recinto5.
Proof.
  intros (vs & Hvs & H1 & _).
  vm_compute in Hvs. injection Hvs as <-.
  refine (bool_decide_eq_false_1 _ _ H1). vm_compute. reflexivity.
Qed.

(** C1, amended: for the seed data, [analisaRecintos("MACACO", 3)] answers
    with enclosure 1 (4 free of 10), enclosure 2 (2 free of 5) and
    enclosure 3 (1 free of 7), in this order; enclosure 4 is turned down for
    its habitat and enclosure 5 because it holds a carnivore. *)
Theorem seed_tres_macacos :
  RecintosZoo.construtor = Some zooInicial
  ∧ FabricaLoteAnimais.geraLote (Js.Str "MACACO") (Js.Number 3)
    = inl (LoteAnimal.novoMacaco 3)
  ∧ resposta (Js.Str "MACACO") (Js.Number 3) zooInicial
    = RecintosZoo.RecintosViaveis
        ["Recinto 1 (espaço livre: 4 total: 10)";
         "Recinto 2 (espaço livre: 2 total: 5)";
         "Recinto 3 (espaço livre: 1 total: 7)"]
  ∧ rejeitadoPorBioma (LoteAnimal.novoMacaco 3) recinto4
  ∧ rejeitadoPorCarnivoro (LoteAnimal.novoMacaco 3) recinto5.
Proof.
  split; [exact construtor_zooInicial|].
  split; [reflexivity|].
  split; [vm_compute; reflexivity|].
  split; [split; vm_compute; reflexivity|].
  repeat split; try (vm_compute; reflexivity).
  apply (bool_decide_eq_false_1 _). vm_compute. reflexivity.
Qed.

(** ** C9: the analysis only reads *)

(** C9: [analisaRecintos] returns the zoo as it received it (every field of
    every enclosure), so that a second call with the same arguments gives
    the same answer. *)
Theorem analisaRecintos_nao_altera_o_zoo animal quantidade zoo :
  (RecintosZoo.analisaRecintos animal quantidade zoo).2 = zoo
  ∧ resposta animal quantidade (RecintosZoo.analisaRecintos animal quantidade zoo).2
    = resposta animal quantidade zoo.
Proof.
  pose proof (soLeitura_analisaRecintos animal quantidade zoo) as H.
  split; [exact H | by rewrite H].
Qed.

(** ** C2 and C10: validation of the arguments *)

(** C2, as stated, fails on the count [2.5] (not a positive integer): the
    answer is a list of viable enclosures. *)
Lemma quantidade_fracionaria_as_stated_fails :
  ¬ inteiroPositivo (Js.Number (5 # 2))
  ∧ resposta (Js.Str "MACACO") (Js.Number (5 # 2)) zooInicial
    = RecintosZoo.RecintosViaveis
        ["Recinto 1 (espaço livre: 4.5 total: 10)";
         "Recinto 2 (espaço livre: 2.5 total: 5)";
         "Recinto 3 (espaço livre: 1.5 total: 7)"].
Proof.
  split; [|vm_compute; reflexivity].
  intros (q & n & Hq & Hn). injection Hq as <-.
  unfold Qeq in Hn. simpl in Hn. lia.
Qed.

(** C2, amended: with a species argument that is a string, a count that is
    not a number or is [<= 0] gives "Quantidade inválida"; a count that is a
    number [> 0], integer or not, is never answered with "Quantidade
    inválida". *)
Theorem quantidade_invalida (nome : string) (quantidade : Js.Value) (zoo : RecintosZoo.t) :
  (quantidadeRecusada quantidade →
   resposta (Js.Str nome) quantidade zoo = RecintosZoo.Erro "Quantidade inválida")
  ∧ (∀ q, quantidade = Js.Number q → 0 < q →
     resposta (Js.Str nome) quantidade zoo ≠ RecintosZoo.Erro "Quantidade inválida").
Proof.
  split.
  - intros H. apply resposta_erro. by apply geraLote_quantidade_invalida.
  - intros q -> Hq.
    destruct (geraLote_quantidade_positiva nome q Hq) as [(lote & Hlote & _) | Herro].
    + rewrite (resposta_lote _ _ _ _ Hlote). simpl.
      case_bool_decide; discriminate.
    + rewrite (resposta_erro _ _ _ _ Herro). discriminate.
Qed.

Lemma quantidade_invalida_witness :
  resposta (Js.Str "MACACO") (Js.Number 0) zooInicial = RecintosZoo.Erro "Quantidade inválida"
  ∧ resposta (Js.Str "MACACO") (Js.Str "3") zooInicial = RecintosZoo.Erro "Quantidade inválida"
  ∧ resposta (Js.Str "MACACO") (Js.Number (5 # 2)) zooInicial
    ≠ RecintosZoo.Erro "Quantidade inválida".
Proof.
  split; [|split].
  - apply (proj1 (quantidade_invalida "MACACO" (Js.Number 0) zooInicial)).
    right. exists 0. split; [reflexivity | discriminate].
  - apply (proj1 (quantidade_invalida "MACACO" (Js.Str "3") zooInicial)).
    left. simpl. discriminate.
  - apply (proj2 (quantidade_invalida "MACACO" (Js.Number (5 # 2)) zooInicial) (5 # 2)).
    + reflexivity.
    + reflexivity.
Defined.

(** C10: a species argument that is not a string gives "Animal inválido"
    whatever the count; a species argument that is a string, known or not,
    with a count that is not a number or is [<= 0] gives "Quantidade
    inválida". *)
Theorem ordem_das_validacoes (animal quantidade : Js.Value) (zoo : RecintosZoo.t) :
  (Js.typeof animal ≠ "string" →
   resposta animal quantidade zoo = RecintosZoo.Erro "Animal inválido")
  ∧ (Js.typeof animal = "string" → quantidadeRecusada quantidade →
     resposta animal quantidade zoo = RecintosZoo.Erro "Quantidade inválida").
Proof.
  split.
  - intros H. apply resposta_erro. by apply geraLote_animal_invalido.
  - intros [nome ->]%typeof_string H.
    apply resposta_erro. by apply geraLote_quantidade_invalida.
Qed.

Lemma ordem_das_validacoes_witness :
  resposta (Js.Number 7) (Js.Number 0) zooInicial = RecintosZoo.Erro "Animal inválido"
  ∧ resposta Js.Undefined (Js.Number 2) zooInicial = RecintosZoo.Erro "Animal inválido"
  ∧ resposta (Js.Str "CACHORRO") (Js.Number 0) zooInicial
    = RecintosZoo.Erro "Quantidade inválida"
  ∧ resposta (Js.Str "CACHORRO") Js.Undefined zooInicial
    = RecintosZoo.Erro "Quantidade inválida".
Proof.
  split; [|split; [|split]].
  - apply (proj1 (ordem_das_validacoes (Js.Number 7) (Js.Number 0) zooInicial)).
    simpl. discriminate.
  - apply (proj1 (ordem_das_validacoes Js.Undefined (Js.Number 2) zooInicial)).
    simpl. discriminate.
  - apply (proj2 (ordem_das_validacoes (Js.Str "CACHORRO") (Js.Number 0) zooInicial)).
    + reflexivity.
    + right. exists 0. split; [reflexivity | discriminate].
  - apply (proj2 (ordem_das_validacoes (Js.Str "CACHORRO") Js.Undefined zooInicial)).
    + reflexivity.
    + left. simpl. discriminate.
Defined.

(** ** Reading the boolean tests *)

Lemma includes_true arr x : Js.includes arr x = true ↔ x ∈ arr.
Proof. unfold Js.includes. apply bool_decide_eq_true. Qed.

Lemma verificaBiomaAdequado_desde_true biomas biomasRecinto :
  LoteAnimal.verificaBiomaAdequado_desde biomas biomasRecinto = true
  ↔ ∃ bioma, bioma ∈ biomas ∧ bioma ∈ biomasRecinto.
Proof.
  induction biomas as [|b resto IH]; simpl.
  - split; [discriminate|]. intros (x & Hx & _). by apply elem_of_nil in Hx.
  - destruct (Js.includes biomasRecinto b) eqn:Hb.
    + split; [|done]. intros _. exists b. split; [left|]. by apply includes_true.
    + rewrite IH. split.
      * intros (x & Hx & Hx'). exists x. split; [by right|done].
      * intros (x & Hx & Hx'). apply elem_of_cons in Hx as [->|Hx].
        -- apply includes_true in Hx'. congruence.
        -- eauto.
Qed.

Lemma verificaEspacoSuficente_true lote espacoDisponivel :
  LoteAnimal.verificaEspacoSuficente lote espacoDisponivel = true
  ↔ LoteAnimal.tamanho lote * LoteAnimal.qtdeLote lote <= espacoDisponivel.
Proof.
  unfold LoteAnimal.verificaEspacoSuficente.
  rewrite Qle_bool_iff, (Qmult_comm (LoteAnimal.qtdeLote lote)). reflexivity.
Qed.

Lemma temOutrasEspecies_true recinto (especie : string) :
  Recinto.temOutrasEspecies recinto (Js.Str especie) = true
  ↔ outraEspeciePresente recinto especie.
Proof.
  unfold Recinto.temOutrasEspecies, outraEspeciePresente, Js.has.
  rewrite orb_true_iff, andb_true_iff, negb_true_iff.
  rewrite !bool_decide_eq_true, bool_decide_eq_false.
  split; (intros [H | [Hum H]]; [by left | right; split; [done|]]).
  - destruct (size_1_elem_of _ Hum) as [x Hx].
    assert (x ∈ Recinto.listaEspecies recinto) as Hin
      by (rewrite Hx; by apply elem_of_singleton).
    exists x. split; [done|]. by intros ->.
  - destruct H as (x & Hx & Hne). intros He.
    apply Hne. by apply (size_singleton_inv _ _ _ Hum).
Qed.

(** The three steps of [consegueAcomodarLote], one by one. *)
Lemma consegueAcomodarLote_true recinto lote :
  Recinto.consegueAcomodarLote recinto lote = true
  ↔ Recinto.estaConfortavel lote recinto = true
    ∧ ("HIPOPOTAMO" ∈ Recinto.listaEspecies recinto →
       LoteAnimal.especie lote ≠ "HIPOPOTAMO" →
       "rio" ∈ Recinto.biomas recinto ∧ "savana" ∈ Recinto.biomas recinto)
    ∧ ¬ (Recinto.flagContemCarnivoros recinto = true
         ∧ LoteAnimal.especie lote ∉ Recinto.listaEspecies recinto)
    ∧ ¬ (LoteAnimal.isCarnivoro lote = true
         ∧ Recinto.flagContemCarnivoros recinto = false
         ∧ (0 < size (Recinto.listaEspecies recinto))%nat).
Proof.
  unfold Recinto.consegueAcomodarLote, Js.includes.
  destruct (Recinto.estaConfortavel lote recinto); simpl;
    [|split; [discriminate | by intros [? _]]].
  destruct (Recinto.flagContemCarnivoros recinto),
           (LoteAnimal.isCarnivoro lote); simpl;
    repeat (match goal with
            | |- context [bool_decide ?P] => destruct (bool_decide_reflect P)
            end; simpl);
    intuition (congruence || lia).
Qed.

(** ** C4: the free space of an enclosure *)

(** C4: [getEspacoDisponivel] is the total capacity minus the occupied
    space, minus one more unit exactly when another species is present;
    [temOutrasEspecies] holds iff the set of resident species has more than
    one member, or exactly one member that differs from the given species. *)
Theorem getEspacoDisponivel_outras_especies (recinto : Recinto.t) (especie : string) :
  (Recinto.temOutrasEspecies recinto (Js.Str especie) = true
   ↔ outraEspeciePresente recinto especie)
  ∧ (outraEspeciePresente recinto especie →
     Recinto.getEspacoDisponivel recinto (Js.Str especie)
     = Recinto.tamanhoTotal recinto - Recinto.tamanhoOcupado recinto - 1)
  ∧ (¬ outraEspeciePresente recinto especie →
     Recinto.getEspacoDisponivel recinto (Js.Str especie)
     = Recinto.tamanhoTotal recinto - Recinto.tamanhoOcupado recinto).
Proof.
  split; [apply temOutrasEspecies_true|].
  unfold Recinto.getEspacoDisponivel.
  split; intros H.
  - apply temOutrasEspecies_true in H. by rewrite H.
  - destruct (Recinto.temOutrasEspecies recinto (Js.Str especie)) eqn:Ht; [|done].
    by apply temOutrasEspecies_true in Ht.
Qed.

Lemma getEspacoDisponivel_outras_especies_witness :
  Recinto.getEspacoDisponivel recinto3 (Js.Str "MACACO") = 7 - 2 - 1
  ∧ Recinto.getEspacoDisponivel recinto3 (Js.Str "GAZELA") = 7 - 2.
Proof.
  split.
  - apply (proj1 (proj2 (getEspacoDisponivel_outras_especies recinto3 "MACACO"))).
    right. split; [reflexivity|]. exists "GAZELA".
    split; [|discriminate].
    change ("GAZELA" ∈ ({[ "GAZELA" ]} : gset string)).
    apply elem_of_singleton. reflexivity.
  - apply (proj2 (proj2 (getEspacoDisponivel_outras_especies recinto3 "GAZELA"))).
    intros [H | (_ & x & Hx & Hne)].
    + vm_compute in H. lia.
    + apply Hne. change (x ∈ ({[ "GAZELA" ]} : gset string)) in Hx.
      apply elem_of_singleton in Hx. exact Hx.
Defined.

(** ** C5: the default comfort rule *)

(** C5: for a batch of a class that does not override [estaConfortavel]
    (every class but [Macaco] and [Hipopotamo]), the batch is comfortable
    iff one of its habitats is among the enclosure's and the free space for
    its species is at least unit size times count. *)
Theorem estaConfortavel_padrao (lote : LoteAnimal.t) (recinto : Recinto.t) :
  LoteAnimal.classe lote ≠ LoteAnimal.Macaco →
  LoteAnimal.classe lote ≠ LoteAnimal.Hipopotamo →
  Recinto.estaConfortavel lote recinto = true ↔ confortoPadrao lote recinto.
Proof.
  intros Hm Hh. unfold confortoPadrao.
  rewrite <- verificaEspacoSuficente_true.
  rewrite <- (verificaBiomaAdequado_desde_true (LoteAnimal.biomas lote)).
  fold (LoteAnimal.verificaBiomaAdequado lote (Recinto.biomas recinto)).
  rewrite <- andb_true_iff.
  unfold Recinto.estaConfortavel.
  destruct (LoteAnimal.classe lote); try done;
    unfold Recinto.estaConfortavel_LoteAnimal; simpl;
    by destruct (_ && _).
Qed.

Lemma estaConfortavel_padrao_witness :
  Recinto.estaConfortavel (LoteAnimal.novoGazela 1) recinto3 = true
  ↔ confortoPadrao (LoteAnimal.novoGazela 1) recinto3.
Proof.
  apply (estaConfortavel_padrao (LoteAnimal.novoGazela 1) recinto3).
  - simpl. discriminate.
  - simpl. discriminate.
Defined.

(** ** C6: a monkey alone *)

(** C6: a batch of exactly one monkey is not comfortable in an enclosure
    whose free space for monkeys equals its total capacity, and the
    enclosure does not accept it. *)
Theorem macaco_sozinho_recusa (q : Q) (recinto : Recinto.t) :
  q == 1 →
  Recinto.getEspacoDisponivel recinto (Js.Str "MACACO") == Recinto.tamanhoTotal recinto →
  Recinto.estaConfortavel (LoteAnimal.novoMacaco q) recinto = false
  ∧ Recinto.consegueAcomodarLote recinto (LoteAnimal.novoMacaco q) = false.
Proof.
  intros Hq Hvazio.
  assert (Recinto.estaConfortavel (LoteAnimal.novoMacaco q) recinto = false) as H.
  { unfold Recinto.estaConfortavel, Recinto.estaConfortavel_Macaco. simpl.
    apply Qeq_bool_iff in Hq, Hvazio. rewrite Hq, Hvazio. simpl.
    by destruct (_ && _). }
  split; [exact H|].
  unfold Recinto.consegueAcomodarLote. by rewrite H.
Qed.

(** The scenario of the specification: one monkey, the empty forest
    enclosure of capacity 5.  Habitat and space both fit. *)
Lemma macaco_sozinho_recusa_witness :
  LoteAnimal.verificaBiomaAdequado (LoteAnimal.novoMacaco 1) (Recinto.biomas recinto2) = true
  ∧ LoteAnimal.verificaEspacoSuficente (LoteAnimal.novoMacaco 1)
      (Recinto.getEspacoDisponivel recinto2 (Js.Str "MACACO")) = true
  ∧ Recinto.estaConfortavel (LoteAnimal.novoMacaco 1) recinto2 = false
  ∧ Recinto.consegueAcomodarLote recinto2 (LoteAnimal.novoMacaco 1) = false.
Proof.
  split; [reflexivity|]. split; [reflexivity|].
  apply (macaco_sozinho_recusa 1 recinto2).
  - reflexivity.
  - vm_compute. reflexivity.
Defined.

(** ** C7: hippopotamuses and other species *)

(** C7: a batch of class [Hipopotamo] that is comfortable in an enclosure
    with other species present finds both "savana" and "rio" among the
    habitats; and a batch of another species accepted by an enclosure that
    holds hippopotamuses finds both as well. *)
Theorem hipopotamo_exige_savana_e_rio (lote : LoteAnimal.t) (recinto : Recinto.t) :
  (LoteAnimal.classe lote = LoteAnimal.Hipopotamo →
   outraEspeciePresente recinto (LoteAnimal.especie lote) →
   Recinto.estaConfortavel lote recinto = true →
   "savana" ∈ Recinto.biomas recinto ∧ "rio" ∈ Recinto.biomas recinto)
  ∧ ("HIPOPOTAMO" ∈ Recinto.listaEspecies recinto →
     LoteAnimal.especie lote ≠ "HIPOPOTAMO" →
     Recinto.consegueAcomodarLote recinto lote = true →
     "savana" ∈ Recinto.biomas recinto ∧ "rio" ∈ Recinto.biomas recinto).
Proof.
  split.
  - intros Hclasse Houtras%temOutrasEspecies_true.
    unfold Recinto.estaConfortavel, Recinto.estaConfortavel_Hipopotamo.
    rewrite Hclasse, Houtras.
    destruct (_ && _); [|discriminate].
    unfold LoteAnimal.toleraOutrasEspecies.
    rewrite andb_true_iff, !includes_true. tauto.
  - intros Hhipo Hne (_ & H & _)%consegueAcomodarLote_true.
    destruct (H Hhipo Hne). by split.
Qed.

Lemma hipopotamo_exige_savana_e_rio_witness :
  ("savana" ∈ Recinto.biomas recinto3 ∧ "rio" ∈ Recinto.biomas recinto3)
  ∧ ("savana" ∈ Recinto.biomas recintoComHipopotamo
     ∧ "rio" ∈ Recinto.biomas recintoComHipopotamo).
Proof.
  split.
  - apply (proj1 (hipopotamo_exige_savana_e_rio (LoteAnimal.novoHipopotamo 1) recinto3)).
    + reflexivity.
    + right. split; [reflexivity|]. exists "GAZELA". split; [|discriminate].
      change ("GAZELA" ∈ ({[ "GAZELA" ]} : gset string)).
      apply elem_of_singleton. reflexivity.
    + reflexivity.
  - apply (proj2 (hipopotamo_exige_savana_e_rio (LoteAnimal.novoGazela 1)
                    recintoComHipopotamo)).
    + change ("HIPOPOTAMO" ∈ ({[ "HIPOPOTAMO" ]} : gset string)).
      apply elem_of_singleton. reflexivity.
    + simpl. discriminate.
    + reflexivity.
Defined.

(** ** C8: carnivores live with their own species only *)

(** C8: an enclosure flagged as holding carnivores turns down a batch of a
    species that is not resident; and an enclosure not flagged, with at
    least one resident species, turns down a carnivorous batch. *)
Theorem carnivoros_so_com_a_propria_especie (lote : LoteAnimal.t) (recinto : Recinto.t) :
  (Recinto.flagContemCarnivoros recinto = true →
   LoteAnimal.especie lote ∉ Recinto.listaEspecies recinto →
   Recinto.consegueAcomodarLote recinto lote = false)
  ∧ (LoteAnimal.isCarnivoro lote = true →
     Recinto.flagContemCarnivoros recinto = false →
     (0 < size (Recinto.listaEspecies recinto))%nat →
     Recinto.consegueAcomodarLote recinto lote = false).
Proof.
  split.
  - intros Hflag Hfora.
    destruct (Recinto.consegueAcomodarLote recinto lote) eqn:H; [|reflexivity].
    apply consegueAcomodarLote_true in H as (_ & _ & H & _). by destruct H.
  - intros Hcarn Hflag Hsize.
    destruct (Recinto.consegueAcomodarLote recinto lote) eqn:H; [|reflexivity].
    apply consegueAcomodarLote_true in H as (_ & _ & _ & H). by destruct H.
Qed.

Lemma carnivoros_so_com_a_propria_especie_witness :
  Recinto.consegueAcomodarLote recinto5 (LoteAnimal.novoMacaco 3) = false
  ∧ Recinto.consegueAcomodarLote recinto1 (LoteAnimal.novoLeao 1) = false.
Proof.
  split.
  - apply (proj1 (carnivoros_so_com_a_propria_especie (LoteAnimal.novoMacaco 3) recinto5)).
    + reflexivity.
    + apply (bool_decide_eq_false_1 _). reflexivity.
  - apply (proj2 (carnivoros_so_com_a_propria_especie (LoteAnimal.novoLeao 1) recinto1)).
    + reflexivity.
    + reflexivity.
    + vm_compute. lia.
Defined.

(** ** C3: raising the occupied space *)

Lemma getEspacoDisponivel_decresce recinto ocupado especie :
  Recinto.tamanhoOcupado recinto <= ocupado →
  Recinto.getEspacoDisponivel (Recinto.com_tamanhoOcupado ocupado recinto) especie
  <= Recinto.getEspacoDisponivel recinto especie.
Proof.
  intros Hocupado. unfold Recinto.getEspacoDisponivel, Recinto.temOutrasEspecies.
  simpl. destruct (_ || _); lra.
Qed.

Lemma cabe_monotono lote recinto ocupado :
  Recinto.tamanhoOcupado recinto <= ocupado →
  cabe lote (Recinto.com_tamanhoOcupado ocupado recinto) = true →
  cabe lote recinto = true.
Proof.
  intros Hocupado. unfold cabe. rewrite !andb_true_iff.
  intros [Hbioma Hespaco]. split; [exact Hbioma|].
  apply verificaEspacoSuficente_true in Hespaco.
  apply verificaEspacoSuficente_true.
  eapply Qle_trans; [exact Hespaco|].
  by apply getEspacoDisponivel_decresce.
Qed.

Lemma estaConfortavel_monotono lote recinto ocupado :
  Recinto.tamanhoOcupado recinto <= ocupado →
  ¬ macacoSozinho lote recinto →
  Recinto.estaConfortavel lote (Recinto.com_tamanhoOcupado ocupado recinto) = true →
  Recinto.estaConfortavel lote recinto = true.
Proof.
  intros Hocupado Hsozinho.
  pose proof (cabe_monotono lote recinto ocupado Hocupado) as Hcabe.
  unfold macacoSozinho in Hsozinho.
  unfold Recinto.estaConfortavel, Recinto.estaConfortavel_LoteAnimal,
    Recinto.estaConfortavel_Macaco, Recinto.estaConfortavel_Hipopotamo.
  fold (cabe lote recinto).
  fold (cabe lote (Recinto.com_tamanhoOcupado ocupado recinto)).
  destruct (cabe lote (Recinto.com_tamanhoOcupado ocupado recinto));
    [rewrite Hcabe by reflexivity | by destruct (LoteAnimal.classe lote)].
  destruct (LoteAnimal.classe lote); try done.
  intros _.
  destruct (Qeq_bool (LoteAnimal.qtdeLote lote) 1) eqn:Hq; [|reflexivity].
  destruct (Qeq_bool _ (Recinto.tamanhoTotal recinto)) eqn:Hvazio; [|reflexivity].
  apply Qeq_bool_iff in Hq, Hvazio. by destruct Hsozinho.
Qed.

(** C3, as stated, fails for one monkey and the empty forest enclosure of
    the seed data: the enclosure turns the monkey down, and accepts it once
    its occupied space is raised from 0 to 1 with nothing else changed.
    [analisaRecintos] then lists enclosure 2, which it did not list
    before.  The same happens when the space is raised by the program
    itself, on the admission of two monkeys. *)
Lemma monotonia_as_stated_fails :
  Recinto.tamanhoOcupado recinto2 <= 1
  ∧ Recinto.tamanhoOcupado (Recinto.adicionaLoteAnimais (LoteAnimal.novoMacaco 2) recinto2)
    = 0 + 1 * 2
  ∧ Recinto.consegueAcomodarLote
      (Recinto.adicionaLoteAnimais (LoteAnimal.novoMacaco 2) recinto2)
      (LoteAnimal.novoMacaco 1) = true
  ∧ Recinto.consegueAcomodarLote (Recinto.com_tamanhoOcupado 1 recinto2)
      (LoteAnimal.novoMacaco 1) = true
  ∧ Recinto.consegueAcomodarLote recinto2 (LoteAnimal.novoMacaco 1) = false
  ∧ resposta (Js.Str "MACACO") (Js.Number 1) zooInicial
    = RecintosZoo.RecintosViaveis
        ["Recinto 1 (espaço livre: 6 total: 10)";
         "Recinto 3 (espaço livre: 3 total: 7)"]
  ∧ resposta (Js.Str "MACACO") (Js.Number 1)
      (RecintosZoo.mk
         [recinto1; Recinto.com_tamanhoOcupado 1 recinto2; recinto3; recinto4; recinto5])
    = RecintosZoo.RecintosViaveis
        ["Recinto 1 (espaço livre: 6 total: 10)";
         "Recinto 2 (espaço livre: 3 total: 5)";
         "Recinto 3 (espaço livre: 3 total: 7)"].
Proof.
  split; [discriminate|].
  repeat split; vm_compute; reflexivity.
Qed.

Lemma consegueAcomodarLote_monotono lote recinto ocupado :
  Recinto.tamanhoOcupado recinto <= ocupado →
  ¬ macacoSozinho lote recinto →
  Recinto.consegueAcomodarLote (Recinto.com_tamanhoOcupado ocupado recinto) lote = true →
  Recinto.consegueAcomodarLote recinto lote = true.
Proof.
  intros Hocupado Hsozinho.
  pose proof (estaConfortavel_monotono lote recinto ocupado Hocupado Hsozinho) as Hconf.
  unfold Recinto.consegueAcomodarLote at 1 2. simpl.
  destruct (Recinto.estaConfortavel lote (Recinto.com_tamanhoOcupado ocupado recinto));
    [|discriminate].
  by rewrite Hconf.
Qed.

Lemma viavel_consegueAcomodarLote animal lote recintos recinto :
  viavel animal lote recintos recinto
  ↔ recinto ∈ recintos ∧ Recinto.consegueAcomodarLote recinto lote = true.
Proof.
  unfold viavel, viaveis. split.
  - intros (livre & H). apply list_elem_of_fmap in H as (r & Hr & Hin).
    apply list_elem_of_filter in Hin as [Hconsegue Hin].
    injection Hr as -> _. by split.
  - intros [Hin Hconsegue]. eexists. apply list_elem_of_fmap.
    exists recinto. split; [reflexivity|]. by apply list_elem_of_filter.
Qed.

(** C3, amended: when the occupied space of one enclosure of the zoo is
    raised and nothing else changes, the enclosure is in the viable set
    after the raise only if it was in it before, unless the batch is a
    single monkey and the free space of the enclosure before the raise
    equals its total capacity.  The viable set is the one
    [analisaRecintos] collects (lemma [resposta_lote]). *)
Theorem monotonia_do_espaco_ocupado
    (animal : Js.Value) (lote : LoteAnimal.t) (recintos : list Recinto.t)
    (i : nat) (recinto : Recinto.t) (ocupado : Q) :
  recintos !! i = Some recinto →
  Recinto.tamanhoOcupado recinto <= ocupado →
  ¬ macacoSozinho lote recinto →
  viavel animal lote (<[i := Recinto.com_tamanhoOcupado ocupado recinto]> recintos)
    (Recinto.com_tamanhoOcupado ocupado recinto) →
  viavel animal lote recintos recinto.
Proof.
  intros Hi Hocupado Hsozinho [_ Hdepois]%viavel_consegueAcomodarLote.
  apply viavel_consegueAcomodarLote. split.
  - apply list_elem_of_lookup. by exists i.
  - by apply (consegueAcomodarLote_monotono lote recinto ocupado).
Qed.

Lemma monotonia_do_espaco_ocupado_witness :
  viavel (Js.Str "MACACO") (LoteAnimal.novoMacaco 3)
    [recinto1; recinto2; recinto3; recinto4; recinto5] recinto1.
Proof.
  apply (monotonia_do_espaco_ocupado (Js.Str "MACACO") (LoteAnimal.novoMacaco 3)
           [recinto1; recinto2; recinto3; recinto4; recinto5] 0 recinto1 5).
  - reflexivity.
  - unfold Qle. simpl. lia.
  - intros (_ & Hq & _). vm_compute in Hq. lia.
  - apply viavel_consegueAcomodarLote. split.
    + apply list_elem_of_lookup. exists 0%nat. reflexivity.
    + reflexivity.
Defined.

(** ** The other scenarios of the specification *)

Example um_hipopotamo_no_recinto3 :
  Recinto.consegueAcomodarLote recinto3 (LoteAnimal.novoHipopotamo 1) = true
  ∧ resposta (Js.Str "HIPOPOTAMO") (Js.Number 1) zooInicial
    = RecintosZoo.RecintosViaveis
        ["Recinto 3 (espaço livre: 0 total: 7)";
         "Recinto 4 (espaço livre: 4 total: 8)"].
Proof. split; vm_compute; reflexivity. Qed.

Example um_hipopotamo_na_savana_com_gazela :
  LoteAnimal.verificaBiomaAdequado (LoteAnimal.novoHipopotamo 1)
    (Recinto.biomas savanaComGazela) = true
  ∧ LoteAnimal.verificaEspacoSuficente (LoteAnimal.novoHipopotamo 1)
      (Recinto.getEspacoDisponivel savanaComGazela (Js.Str "HIPOPOTAMO")) = true
  ∧ Recinto.consegueAcomodarLote savanaComGazela (LoteAnimal.novoHipopotamo 1) = false.
Proof. repeat split; vm_compute; reflexivity. Qed.

Example dois_cachorros :
  resposta (Js.Str "CACHORRO") (Js.Number 2) zooInicial = RecintosZoo.Erro "Animal inválido".
Proof. reflexivity. Qed.

(** The species argument reaches [getEspacoDisponivel] as it was typed:
    in lower case it is never a member of the set of resident species. *)
Example dois_macacos_em_minusculas :
  resposta (Js.Str "MACACO") (Js.Number 2) zooInicial
  = RecintosZoo.RecintosViaveis
      ["Recinto 1 (espaço livre: 5 total: 10)";
       "Recinto 2 (espaço livre: 3 total: 5)";
       "Recinto 3 (espaço livre: 2 total: 7)"]
  ∧ resposta (Js.Str "macaco") (Js.Number 2) zooInicial
    = RecintosZoo.RecintosViaveis
        ["Recinto 1 (espaço livre: 4 total: 10)";
         "Recinto 2 (espaço livre: 3 total: 5)";
         "Recinto 3 (espaço livre: 2 total: 7)"].
Proof. split; vm_compute; reflexivity. Qed.

(** * Further properties of the code *)

(** ** The factory *)

Lemma geraLote_erro especie qtdeLote mensagem :
  FabricaLoteAnimais.geraLote especie qtdeLote = inr mensagem →
  mensagem = "Animal inválido" ∨ mensagem = "Quantidade inválida".
Proof.
  unfold FabricaLoteAnimais.geraLote.
  destruct especie; try (intros [= <-]; by left).
  destruct qtdeLote; try (intros [= <-]; by right).
  destruct (Qle_bool q 0); [intros [= <-]; by right|].
  repeat case_bool_decide; intros [= <-]. by left.
Qed.


Lemma doCatalogo_hipopotamo lote :
  doCatalogo lote →
  LoteAnimal.especie lote = "HIPOPOTAMO" →
  LoteAnimal.classe lote = LoteAnimal.Hipopotamo.
Proof.
  intros (q & Hq & Hlote).
  repeat (apply elem_of_cons in Hlote as [-> | Hlote];
          [simpl; intros; (reflexivity || discriminate)|]).
  by apply elem_of_nil in Hlote.
Qed.


Lemma geraLote_inl especie qtdeLote lote :
  FabricaLoteAnimais.geraLote especie qtdeLote = inl lote →
  ∃ nome quantidade,
    especie = Js.Str nome ∧ qtdeLote = Js.Number quantidade ∧ 0 < quantidade
    ∧ LoteAnimal.especie lote = Js.toUpperCase nome
    ∧ LoteAnimal.qtdeLote lote = quantidade
    ∧ doCatalogo lote.
Proof.
  unfold FabricaLoteAnimais.geraLote.
  destruct especie as [| | | | |nome| | |]; try discriminate.
  destruct qtdeLote as [| | |quantidade| | | | |]; try discriminate.
  destruct (Qle_bool quantidade 0) eqn:Hq; [discriminate|].
  assert (0 < quantidade) as Hpos.
  { apply Qnot_le_lt. intros Hle%Qle_bool_iff. congruence. }
  intros Hlote. exists nome, quantidade.
  do 3 (split; [done|]).
  repeat case_bool_decide; try discriminate Hlote; injection Hlote as <-;
    (split; [by symmetry|]); (split; [reflexivity|]);
    exists quantidade; (split; [exact Hpos|]); repeat first [by left | right].
Qed.





(** ** The answers of [analisaRecintos] *)

Lemma viaveis_length animal lote recintos :
  length (viaveis animal lote recintos)
  = length (filter (λ r, Recinto.consegueAcomodarLote r lote = true) recintos).
Proof. unfold viaveis. apply length_map. Qed.

Lemma viaveis_nil animal lote recintos :
  viaveis animal lote recintos = []
  ↔ ∀ r, r ∈ recintos → Recinto.consegueAcomodarLote r lote = false.
Proof.
  split.
  - intros Hnil r Hr.
    destruct (Recinto.consegueAcomodarLote r lote) eqn:Hc; [|reflexivity].
    assert (viavel animal lote recintos r) as [livre Hin]
      by (by apply viavel_consegueAcomodarLote).
    rewrite Hnil in Hin. by apply elem_of_nil in Hin.
  - intros Hnenhum.
    destruct (viaveis animal lote recintos) as [|[r livre] vs] eqn:Hvs; [reflexivity|].
    assert (viavel animal lote recintos r) as [Hr Hc]%viavel_consegueAcomodarLote.
    { exists livre. rewrite Hvs. by left. }
    rewrite (Hnenhum r Hr) in Hc. discriminate Hc.
Qed.

(** X3: whatever the arguments and the zoo, the answer is one of the three
    error texts or a list of viable enclosures that is not empty. *)
Theorem desfechos_de_analisaRecintos (animal quantidade : Js.Value) (zoo : RecintosZoo.t) :
  resposta animal quantidade zoo = RecintosZoo.Erro "Animal inválido"
  ∨ resposta animal quantidade zoo = RecintosZoo.Erro "Quantidade inválida"
  ∨ resposta animal quantidade zoo = RecintosZoo.Erro "Não há recinto viável"
  ∨ ∃ recintosViaveis,
      resposta animal quantidade zoo = RecintosZoo.RecintosViaveis recintosViaveis
      ∧ recintosViaveis ≠ [].
Proof.
  destruct (FabricaLoteAnimais.geraLote animal quantidade) as [lote|mensagem] eqn:Hlote.
  - rewrite (resposta_lote _ _ _ _ Hlote). simpl.
    case_bool_decide as Hlen; [|by right; right; left].
    right; right; right. eexists. split; [reflexivity|].
    destruct (viaveis animal lote (RecintosZoo.listaRecintos zoo)); [simpl in Hlen; lia|].
    discriminate.
  - rewrite (resposta_erro _ _ _ _ Hlote).
    destruct (geraLote_erro _ _ _ Hlote) as [-> | ->]; [by left | by right; left].
Qed.

(** X4: for arguments the factory accepts, the answer is "Não há recinto
    viável" exactly when no enclosure of the zoo accepts the batch;
    otherwise the list has one text for each enclosure that accepts it. *)
Theorem nao_ha_recinto_viavel
    (animal quantidade : Js.Value) (lote : LoteAnimal.t) (zoo : RecintosZoo.t) :
  FabricaLoteAnimais.geraLote animal quantidade = inl lote →
  (resposta animal quantidade zoo = RecintosZoo.Erro "Não há recinto viável"
   ↔ ∀ r, r ∈ RecintosZoo.listaRecintos zoo →
          Recinto.consegueAcomodarLote r lote = false)
  ∧ (∀ recintosViaveis,
       resposta animal quantidade zoo = RecintosZoo.RecintosViaveis recintosViaveis →
       length recintosViaveis
       = length (filter (λ r, Recinto.consegueAcomodarLote r lote = true)
                        (RecintosZoo.listaRecintos zoo))).
Proof.
  intros Hlote. rewrite (resposta_lote _ _ _ _ Hlote). simpl.
  rewrite <- (viaveis_nil animal).
  rewrite <- (viaveis_length animal).
  destruct (viaveis animal lote (RecintosZoo.listaRecintos zoo)) as [|o vs]; simpl.
  - split; [done|]. intros ? [=].
  - split; [split; discriminate|].
    intros ? [= <-]. simpl. by rewrite length_map.
Qed.

Lemma nao_ha_recinto_viavel_witness :
  (resposta (Js.Str "CROCODILO") (Js.Number 3) zooInicial
   = RecintosZoo.Erro "Não há recinto viável"
   ↔ ∀ r, r ∈ RecintosZoo.listaRecintos zooInicial →
          Recinto.consegueAcomodarLote r (LoteAnimal.novoCrocodilo 3) = false)
  ∧ (∀ recintosViaveis,
       resposta (Js.Str "CROCODILO") (Js.Number 3) zooInicial
       = RecintosZoo.RecintosViaveis recintosViaveis →
       length recintosViaveis
       = length (filter (λ r, Recinto.consegueAcomodarLote r
                                (LoteAnimal.novoCrocodilo 3) = true)
                        (RecintosZoo.listaRecintos zooInicial))).
Proof.
  apply (nao_ha_recinto_viavel (Js.Str "CROCODILO") (Js.Number 3)
           (LoteAnimal.novoCrocodilo 3) zooInicial).
  reflexivity.
Defined.

(** ** Admission: what [consegueAcomodarLote] guarantees *)

Lemma estaConfortavel_cabe lote recinto :
  Recinto.estaConfortavel lote recinto = true → cabe lote recinto = true.
Proof.
  unfold Recinto.estaConfortavel, Recinto.estaConfortavel_LoteAnimal,
    Recinto.estaConfortavel_Macaco, Recinto.estaConfortavel_Hipopotamo.
  fold (cabe lote recinto).
  destruct (cabe lote recinto); [done|]. by destruct (LoteAnimal.classe lote).
Qed.

Lemma consegueAcomodarLote_espaco recinto lote :
  Recinto.consegueAcomodarLote recinto lote = true →
  LoteAnimal.tamanhoLote lote
  <= Recinto.getEspacoDisponivel recinto (Js.Str (LoteAnimal.especie lote)).
Proof.
  intros (Hconf & _)%consegueAcomodarLote_true.
  apply estaConfortavel_cabe in Hconf. unfold cabe in Hconf.
  apply andb_true_iff in Hconf as [_ Hespaco].
  by apply verificaEspacoSuficente_true in Hespaco.
Qed.

(** Another species is present iff some resident species differs from the
    given one. *)
Lemma outraEspeciePresente_existe recinto especie :
  outraEspeciePresente recinto especie
  ↔ ∃ residente, residente ∈ Recinto.listaEspecies recinto ∧ residente ≠ especie.
Proof.
  unfold outraEspeciePresente. split.
  - intros [Hmais | [_ H]]; [|exact H].
    destruct (set_choose_or_empty (Recinto.listaEspecies recinto ∖ {[ especie ]}))
      as [[x Hx] | Hvazio].
    + apply elem_of_difference in Hx as [Hx Hne]. exists x. split; [done|].
      intros ->. apply Hne. by apply elem_of_singleton.
    + assert (Recinto.listaEspecies recinto ⊆ {[ especie ]}) as Hsub.
      { intros x Hx. destruct (decide (x = especie)) as [->|Hne].
        - by apply elem_of_singleton.
        - exfalso. apply (not_elem_of_empty (C:=gset string) x). rewrite <- Hvazio.
          apply elem_of_difference. split; [done|]. by intros ?%elem_of_singleton. }
      apply subseteq_size in Hsub. rewrite size_singleton in Hsub. lia.
  - intros (x & Hx & Hne).
    destruct (decide (size (Recinto.listaEspecies recinto) = 1%nat)) as [Hum|Hn].
    + right. split; [done|]. by exists x.
    + left. assert (size (Recinto.listaEspecies recinto) ≠ 0%nat).
      { intros Hzero%size_empty_iff. apply (not_elem_of_empty (C:=gset string) x).
        by rewrite <- Hzero. }
      lia.
Qed.




(** ** Invariants of the enclosures the program builds *)

Lemma alcancavel_impl (P R : LoteAnimal.t → Prop) recinto :
  (∀ lote, P lote → R lote) → alcancavel P recinto → alcancavel R recinto.
Proof.
  intros HPR. induction 1 as [|lote recinto Hlote _ IH]; constructor; auto.
Qed.

(** What the constructor returns is reachable, with the batches of its
    argument. *)
Lemma alcancavel_adicionaTodos P animais recinto recinto' :
  (∀ lote, inl lote ∈ animais → P lote) →
  alcancavel P recinto →
  Recinto.adicionaTodos animais recinto = Some recinto' →
  alcancavel P recinto'.
Proof.
  revert recinto. induction animais as [|[lote|msg] resto IH]; intros recinto HP Hr; simpl.
  - by intros [= <-].
  - apply IH.
    + intros l Hl. apply HP. by right.
    + constructor; [|done]. apply HP. by left.
  - discriminate.
Qed.

Lemma alcancavel_construtor P id biomas tamanhoTotal animais recinto :
  (∀ lista lote, animais = Some lista → inl lote ∈ lista → P lote) →
  Recinto.construtor id biomas tamanhoTotal animais = Some recinto →
  alcancavel P recinto.
Proof.
  unfold Recinto.construtor. destruct animais as [lista|].
  - intros HP. apply alcancavel_adicionaTodos; [by eauto|].
    apply (alcancavel_vazio P id biomas tamanhoTotal).
  - intros _ [= <-]. apply (alcancavel_vazio P id biomas tamanhoTotal).
Qed.

Lemma doCatalogo_novoMacaco q : 0 < q → doCatalogo (LoteAnimal.novoMacaco q).
Proof. intros Hq. exists q. split; [done|]. do 3 right. by left. Qed.

Lemma doCatalogo_novoGazela q : 0 < q → doCatalogo (LoteAnimal.novoGazela q).
Proof. intros Hq. exists q. split; [done|]. do 4 right. by left. Qed.

Lemma doCatalogo_novoLeao q : 0 < q → doCatalogo (LoteAnimal.novoLeao q).
Proof. intros Hq. exists q. split; [done|]. by left. Qed.

Lemma doCatalogo_novoHipopotamo q : 0 < q → doCatalogo (LoteAnimal.novoHipopotamo q).
Proof. intros Hq. exists q. split; [done|]. do 5 right. by left. Qed.

(** The enclosures of the seed data are reachable with batches of the
    catalogue. *)
Lemma alcancavel_zooInicial :
  Forall (alcancavel doCatalogo) (RecintosZoo.listaRecintos zooInicial).
Proof.
  repeat apply Forall_cons_2; [..|apply Forall_nil_2].
  - apply (alcancavel_construtor _ 1 ["savana"] 10 (Some [inl (LoteAnimal.novoMacaco 3)]));
      [|vm_compute; reflexivity].
    intros lista lote [= <-] [[= ->]|[]%elem_of_nil]%elem_of_cons.
    by apply doCatalogo_novoMacaco.
  - apply (alcancavel_vazio _ 2 ["floresta"] 5).
  - apply (alcancavel_construtor _ 3 ["savana"; "rio"] 7
             (Some [inl (LoteAnimal.novoGazela 1)])); [|vm_compute; reflexivity].
    intros lista lote [= <-] [[= ->]|[]%elem_of_nil]%elem_of_cons.
    by apply doCatalogo_novoGazela.
  - apply (alcancavel_vazio _ 4 ["rio"] 8).
  - apply (alcancavel_construtor _ 5 ["savana"] 9 (Some [inl (LoteAnimal.novoLeao 1)]));
      [|vm_compute; reflexivity].
    intros lista lote [= <-] [[= ->]|[]%elem_of_nil]%elem_of_cons.
    by apply doCatalogo_novoLeao.
Qed.

Lemma alcancavel_recinto1 : alcancavel doCatalogo recinto1.
Proof. exact (Forall_inv alcancavel_zooInicial). Qed.

Lemma alcancavel_recinto3 : alcancavel doCatalogo recinto3.
Proof. exact (Forall_inv (Forall_inv_tail (Forall_inv_tail alcancavel_zooInicial))). Qed.

Lemma alcancavel_recinto5 : alcancavel doCatalogo recinto5.
Proof.
  exact (Forall_inv (Forall_inv_tail (Forall_inv_tail (Forall_inv_tail
           (Forall_inv_tail alcancavel_zooInicial))))).
Qed.

Lemma alcancavel_recintoComHipopotamo : alcancavel doCatalogo recintoComHipopotamo.
Proof.
  apply (alcancavel_construtor _ 6 ["savana"; "rio"] 10
           (Some [inl (LoteAnimal.novoHipopotamo 1)])); [|vm_compute; reflexivity].
  intros lista lote [= <-] [[= ->]|[]%elem_of_nil]%elem_of_cons.
  by apply doCatalogo_novoHipopotamo.
Qed.

Lemma somaTamanhos_app lotes lote :
  somaTamanhos (lotes ++ [lote]) == somaTamanhos lotes + LoteAnimal.tamanhoLote lote.
Proof.
  induction lotes as [|l resto IH]; simpl.
  - ring.
  - rewrite IH. ring.
Qed.

Lemma alcancavel_listaEspecies P recinto :
  alcancavel P recinto →
  Recinto.listaEspecies recinto
  = list_to_set (LoteAnimal.especie <$> Recinto.animaisExistentes recinto).
Proof.
  induction 1 as [id biomas total|lote recinto _ _ IH]; [reflexivity|].
  unfold Recinto.adicionaLoteAnimais.
  destruct (Recinto.consegueAcomodarLote recinto lote); [|exact IH]. simpl.
  rewrite fmap_app, list_to_set_app_L, <- IH. simpl.
  rewrite (right_id_L ∅ (∪)). apply (comm_L (∪)).
Qed.

Lemma alcancavel_tamanhoOcupado P recinto :
  alcancavel P recinto →
  Recinto.tamanhoOcupado recinto == somaTamanhos (Recinto.animaisExistentes recinto).
Proof.
  induction 1 as [id biomas total|lote recinto _ _ IH]; [reflexivity|].
  unfold Recinto.adicionaLoteAnimais.
  destruct (Recinto.consegueAcomodarLote recinto lote); [|exact IH]. simpl.
  rewrite somaTamanhos_app, IH. reflexivity.
Qed.

Lemma alcancavel_flagContemCarnivoros P recinto :
  alcancavel P recinto →
  Recinto.flagContemCarnivoros recinto = true
  ↔ ∃ lote, lote ∈ Recinto.animaisExistentes recinto
            ∧ LoteAnimal.isCarnivoro lote = true.
Proof.
  induction 1 as [id biomas total|lote recinto _ _ IH].
  - simpl. split; [discriminate|]. intros (l & []%elem_of_nil & _).
  - unfold Recinto.adicionaLoteAnimais.
    destruct (Recinto.consegueAcomodarLote recinto lote); [|exact IH]. simpl.
    destruct (LoteAnimal.isCarnivoro lote) eqn:Hcarn.
    + split; [|done]. intros _. exists lote. split; [|done].
      apply elem_of_app. right. by left.
    + rewrite IH. split; intros (l & Hl & Hc); exists l; (split; [|done]).
      * apply elem_of_app. by left.
      * apply elem_of_app in Hl as [Hl | [->|[]%elem_of_nil]%elem_of_cons]; [done|].
        congruence.
Qed.

(** X6: in every enclosure the program can build, the derived fields agree
    with the list of resident batches: the set of species is the set of
    their species, the occupied space is the sum of their spaces, and the
    carnivore flag is set exactly when one of them is carnivorous. *)
Theorem registros_do_recinto (P : LoteAnimal.t → Prop) (recinto : Recinto.t) :
  alcancavel P recinto → registrosEmDia recinto.
Proof.
  intros Halc. unfold registrosEmDia. split; [|split].
  - by apply (alcancavel_listaEspecies P).
  - by apply (alcancavel_tamanhoOcupado P).
  - by apply (alcancavel_flagContemCarnivoros P).
Qed.

Lemma registros_do_recinto_witness : registrosEmDia recinto5.
Proof.
  apply (registros_do_recinto doCatalogo recinto5).
  exact alcancavel_recinto5.
Defined.

(** More than one species after the admission of a batch: another species
    was present for that batch. *)
Lemma mais_de_uma_especie lote recinto :
  (1 < size ({[ LoteAnimal.especie lote ]} ∪ Recinto.listaEspecies recinto))%nat →
  Recinto.temOutrasEspecies recinto (Js.Str (LoteAnimal.especie lote)) = true.
Proof.
  intros Hsize. apply temOutrasEspecies_true, outraEspeciePresente_existe.
  destruct (set_choose_or_empty
              (Recinto.listaEspecies recinto ∖ {[ LoteAnimal.especie lote ]}))
    as [[x Hx] | Hvazio].
  - apply elem_of_difference in Hx as [Hx Hne]. exists x. split; [done|].
    intros ->. apply Hne. by apply elem_of_singleton.
  - assert ({[ LoteAnimal.especie lote ]} ∪ Recinto.listaEspecies recinto
            ⊆ ({[ LoteAnimal.especie lote ]} : gset string)) as Hsub.
    { intros x [Hx|Hx]%elem_of_union; [done|].
      destruct (decide (x = LoteAnimal.especie lote)) as [->|Hne].
      - by apply elem_of_singleton.
      - exfalso. apply (not_elem_of_empty (C:=gset string) x). rewrite <- Hvazio.
        apply elem_of_difference. split; [done|]. by intros ?%elem_of_singleton. }
    apply subseteq_size in Hsub. rewrite size_singleton in Hsub. lia.
Qed.



Lemma carnivoros_uma_especie (P : LoteAnimal.t → Prop) (recinto : Recinto.t) :
  alcancavel P recinto →
  Recinto.flagContemCarnivoros recinto = true →
  size (Recinto.listaEspecies recinto) = 1%nat.
Proof.
  induction 1 as [id biomas total|lote recinto _ _ IH]; [discriminate|].
  unfold Recinto.adicionaLoteAnimais.
  destruct (Recinto.consegueAcomodarLote recinto lote) eqn:Hconsegue; [|exact IH].
  apply consegueAcomodarLote_true in Hconsegue as (_ & _ & Hfora & Hcarn).
  simpl. intros Hflag.
  destruct (Recinto.flagContemCarnivoros recinto) eqn:Hantes.
  - destruct (decide (LoteAnimal.especie lote ∈ Recinto.listaEspecies recinto))
      as [Hdentro|Hn]; [|by destruct Hfora].
    rewrite (subseteq_union_1_L {[ LoteAnimal.especie lote ]}
               (Recinto.listaEspecies recinto)); [by apply IH|].
    by intros x ->%elem_of_singleton.
  - destruct (LoteAnimal.isCarnivoro lote); [|discriminate].
    assert (size (Recinto.listaEspecies recinto) = 0%nat) as Hzero.
    { destruct (size (Recinto.listaEspecies recinto)); [reflexivity|].
      destruct Hcarn. repeat split. lia. }
    apply size_empty_iff, leibniz_equiv in Hzero. rewrite Hzero.
    rewrite (right_id_L ∅ (∪)). apply size_singleton.
Qed.



Lemma estaConfortavel_Hipopotamo_tolera lote recinto :
  LoteAnimal.classe lote = LoteAnimal.Hipopotamo →
  Recinto.temOutrasEspecies recinto (Js.Str (LoteAnimal.especie lote)) = true →
  Recinto.estaConfortavel lote recinto = true →
  "savana" ∈ Recinto.biomas recinto ∧ "rio" ∈ Recinto.biomas recinto.
Proof.
  intros Hclasse Houtras.
  unfold Recinto.estaConfortavel, Recinto.estaConfortavel_Hipopotamo.
  rewrite Hclasse, Houtras.
  destruct (_ && _); [|discriminate].
  unfold LoteAnimal.toleraOutrasEspecies.
  rewrite andb_true_iff, !includes_true. tauto.
Qed.

Lemma hipopotamos_com_outras_especies (recinto : Recinto.t) :
  alcancavel doCatalogo recinto →
  "HIPOPOTAMO" ∈ Recinto.listaEspecies recinto →
  (1 < size (Recinto.listaEspecies recinto))%nat →
  "savana" ∈ Recinto.biomas recinto ∧ "rio" ∈ Recinto.biomas recinto.
Proof.
  induction 1 as [id biomas total|lote recinto Hlote _ IH].
  - by intros []%not_elem_of_empty.
  - unfold Recinto.adicionaLoteAnimais.
    destruct (Recinto.consegueAcomodarLote recinto lote) eqn:Hconsegue; [|exact IH].
    apply consegueAcomodarLote_true in Hconsegue as (Hconf & Hhipo & _).
    simpl. intros Hdentro Hmisto%mais_de_uma_especie.
    destruct (decide (LoteAnimal.especie lote = "HIPOPOTAMO")) as [Hesp|Hesp].
    + apply (estaConfortavel_Hipopotamo_tolera lote); [|done..].
      by apply doCatalogo_hipopotamo.
    + apply elem_of_union in Hdentro as [Hd%elem_of_singleton|Hd]; [congruence|].
      destruct (Hhipo Hd Hesp). by split.
Qed.

(** X9: in every enclosure the program can build from batches of the
    factory, hippopotamuses reside with a batch of another species only
    where the habitats include both "savana" and "rio". *)
Theorem hipopotamos_acompanhados
    (recinto : Recinto.t) (hipopotamo outro : LoteAnimal.t) :
  alcancavel doCatalogo recinto →
  hipopotamo ∈ Recinto.animaisExistentes recinto →
  LoteAnimal.especie hipopotamo = "HIPOPOTAMO" →
  outro ∈ Recinto.animaisExistentes recinto →
  LoteAnimal.especie outro ≠ "HIPOPOTAMO" →
  "savana" ∈ Recinto.biomas recinto ∧ "rio" ∈ Recinto.biomas recinto.
Proof.
  intros Halc Hhip Hesp Houtro Hne.
  pose proof (alcancavel_listaEspecies _ _ Halc) as Hlista.
  assert (∀ l, l ∈ Recinto.animaisExistentes recinto →
               LoteAnimal.especie l ∈ Recinto.listaEspecies recinto) as Hdentro.
  { intros l Hl. rewrite Hlista. apply elem_of_list_to_set, list_elem_of_fmap. eauto. }
  apply (hipopotamos_com_outras_especies recinto Halc).
  - rewrite <- Hesp. by apply Hdentro.
  - assert (outraEspeciePresente recinto "HIPOPOTAMO") as [Hmais | (Hum & _)].
    { apply outraEspeciePresente_existe. exists (LoteAnimal.especie outro).
      split; [by apply Hdentro|done]. }
    + exact Hmais.
    + destruct Hne. apply (size_singleton_inv _ _ _ Hum); [by apply Hdentro|].
      rewrite <- Hesp. by apply Hdentro.
Qed.

(** The enclosure 3 of the seed data after one hippopotamus joins the
    gazelle. *)
Lemma hipopotamos_acompanhados_witness :
  "savana" ∈ Recinto.biomas
               (Recinto.adicionaLoteAnimais (LoteAnimal.novoHipopotamo 1) recinto3)
  ∧ "rio" ∈ Recinto.biomas
              (Recinto.adicionaLoteAnimais (LoteAnimal.novoHipopotamo 1) recinto3).
Proof.
  apply (hipopotamos_acompanhados
           (Recinto.adicionaLoteAnimais (LoteAnimal.novoHipopotamo 1) recinto3)
           (LoteAnimal.novoHipopotamo 1) (LoteAnimal.novoGazela 1)).
  - apply alcancavel_adiciona; [|exact alcancavel_recinto3].
    apply doCatalogo_novoHipopotamo. reflexivity.
  - apply list_elem_of_lookup. exists 1%nat. reflexivity.
  - reflexivity.
  - apply list_elem_of_lookup. exists 0%nat. reflexivity.
  - simpl. discriminate.
Defined.

(** ** The monkey alone, in an enclosure the program can build *)

Lemma alcancavel_residentes P recinto :
  alcancavel P recinto → Forall P (Recinto.animaisExistentes recinto).
Proof.
  induction 1 as [id biomas total|lote recinto Hlote _ IH]; [by constructor|].
  unfold Recinto.adicionaLoteAnimais.
  destruct (Recinto.consegueAcomodarLote recinto lote); [|exact IH].
  simpl. apply Forall_app. split; [exact IH|]. by repeat constructor.
Qed.





(** ** The constructor of [Recinto] *)

Lemma adicionaTodos_None animais recinto :
  Recinto.adicionaTodos animais recinto = None ↔ ∃ mensagem, inr mensagem ∈ animais.
Proof.
  revert recinto. induction animais as [|[lote|msg] resto IH]; intros recinto; simpl.
  - split; [discriminate|]. intros (m & []%elem_of_nil).
  - rewrite IH. split; intros (m & Hm); exists m.
    + by right.
    + apply elem_of_cons in Hm as [[=]|Hm]. exact Hm.
  - split; [|done]. intros _. exists msg. by left.
Qed.

Lemma adicionaLoteAnimais_campos lote recinto :
  Recinto.id (Recinto.adicionaLoteAnimais lote recinto) = Recinto.id recinto
  ∧ Recinto.biomas (Recinto.adicionaLoteAnimais lote recinto) = Recinto.biomas recinto
  ∧ Recinto.tamanhoTotal (Recinto.adicionaLoteAnimais lote recinto)
    = Recinto.tamanhoTotal recinto.
Proof.
  unfold Recinto.adicionaLoteAnimais.
  by destruct (Recinto.consegueAcomodarLote recinto lote).
Qed.

Lemma adicionaTodos_campos animais recinto recinto' :
  Recinto.adicionaTodos animais recinto = Some recinto' →
  Recinto.id recinto' = Recinto.id recinto
  ∧ Recinto.biomas recinto' = Recinto.biomas recinto
  ∧ Recinto.tamanhoTotal recinto' = Recinto.tamanhoTotal recinto.
Proof.
  revert recinto. induction animais as [|[lote|msg] resto IH]; intros recinto; simpl.
  - by intros [= <-].
  - intros (-> & -> & ->)%IH. apply adicionaLoteAnimais_campos.
  - discriminate.
Qed.

(** X11: the constructor throws exactly when its list of batches holds an
    error text of the factory; otherwise it returns an enclosure with the
    identifier, habitats and capacity it was given, whose resident batches
    all come from that list. *)
Theorem construtor_do_recinto
    (id : Q) (biomas : list string) (tamanhoTotal : Q)
    (animaisPreExistentes : option (list (LoteAnimal.t + string))) :
  (Recinto.construtor id biomas tamanhoTotal animaisPreExistentes = None
   ↔ ∃ lista mensagem, animaisPreExistentes = Some lista ∧ inr mensagem ∈ lista)
  ∧ (∀ recinto,
       Recinto.construtor id biomas tamanhoTotal animaisPreExistentes = Some recinto →
       Recinto.id recinto = id
       ∧ Recinto.biomas recinto = biomas
       ∧ Recinto.tamanhoTotal recinto = tamanhoTotal
       ∧ ∀ lote, lote ∈ Recinto.animaisExistentes recinto →
                 ∃ lista, animaisPreExistentes = Some lista ∧ inl lote ∈ lista).
Proof.
  split.
  - unfold Recinto.construtor. destruct animaisPreExistentes as [lista|].
    + rewrite adicionaTodos_None. split.
      * intros (m & Hm). by exists lista, m.
      * intros (l & m & [= <-] & Hm). by exists m.
    + split; [discriminate|]. by intros (l & m & [=] & _).
  - intros recinto Hr.
    assert (Recinto.id recinto = id ∧ Recinto.biomas recinto = biomas
            ∧ Recinto.tamanhoTotal recinto = tamanhoTotal) as (-> & -> & ->).
    { unfold Recinto.construtor in Hr. destruct animaisPreExistentes as [lista|].
      - by apply adicionaTodos_campos in Hr.
      - by injection Hr as <-. }
    repeat split. intros lote Hlote.
    assert (alcancavel (λ l, ∃ lista, animaisPreExistentes = Some lista ∧ inl l ∈ lista)
              recinto) as Halc.
    { apply (alcancavel_construtor _ _ _ _ _ _ (λ lista l H1 H2, ex_intro _ lista (conj H1 H2)) Hr). }
    apply alcancavel_residentes in Halc.
    by apply (proj1 (Forall_forall _ _) Halc).
Qed.

Lemma construtor_do_recinto_witness :
  Recinto.construtor 8 ["savana"] 10
    (Some [FabricaLoteAnimais.geraLote (Js.Str "CACHORRO") (Js.Number 1)]) = None.
Proof.
  apply (proj1 (construtor_do_recinto 8 ["savana"] 10
           (Some [FabricaLoteAnimais.geraLote (Js.Str "CACHORRO") (Js.Number 1)]))).
  exists [inr "Animal inválido"], "Animal inválido".
  split; [reflexivity|]. apply list_elem_of_lookup. exists 0%nat. reflexivity.
Defined.

(** ** The free space [analisaRecintos] reports *)

Lemma getEspacoDisponivel_limites recinto especie :
  Recinto.tamanhoTotal recinto - Recinto.tamanhoOcupado recinto - 1
  <= Recinto.getEspacoDisponivel recinto especie
  ∧ Recinto.getEspacoDisponivel recinto especie
    <= Recinto.tamanhoTotal recinto - Recinto.tamanhoOcupado recinto.
Proof.
  unfold Recinto.getEspacoDisponivel.
  destruct (Recinto.temOutrasEspecies recinto especie); split; lra.
Qed.

Lemma viaveis_elem_of animal lote recintos o :
  o ∈ viaveis animal lote recintos
  ↔ ∃ r, r ∈ recintos ∧ Recinto.consegueAcomodarLote r lote = true
         ∧ o = RecintosZoo.opcao r
                 (Recinto.getEspacoDisponivel r animal - LoteAnimal.tamanhoLote lote).
Proof.
  unfold viaveis. rewrite list_elem_of_fmap. split.
  - intros (r & -> & [Hc Hr]%list_elem_of_filter). by exists r.
  - intros (r & Hr & Hc & ->). exists r. split; [reflexivity|].
    by apply list_elem_of_filter.
Qed.



(** X13: a name that the factory resolves but that is not written in upper
    case is never found among the resident species: an enclosure that
    accepts the batch and holds only the species of the batch is reported
    with one unit less of free space than for the name in upper case. *)
Theorem nome_fora_de_maiusculas
    (nome : string) (quantidade : Js.Value) (lote : LoteAnimal.t)
    (recinto : Recinto.t) (recintos : list Recinto.t) :
  FabricaLoteAnimais.geraLote (Js.Str nome) quantidade = inl lote →
  nome ≠ Js.toUpperCase nome →
  recinto ∈ recintos →
  Recinto.consegueAcomodarLote recinto lote = true →
  Recinto.listaEspecies recinto = {[ LoteAnimal.especie lote ]} →
  RecintosZoo.opcao recinto
    (Recinto.tamanhoTotal recinto - Recinto.tamanhoOcupado recinto - 1
     - LoteAnimal.tamanhoLote lote)
  ∈ viaveis (Js.Str nome) lote recintos
  ∧ RecintosZoo.opcao recinto
      (Recinto.tamanhoTotal recinto - Recinto.tamanhoOcupado recinto
       - LoteAnimal.tamanhoLote lote)
    ∈ viaveis (Js.Str (LoteAnimal.especie lote)) lote recintos.
Proof.
  intros Hlote Hnome Hr Hconsegue Hlista.
  apply geraLote_inl in Hlote as (n & q & [= <-] & _ & _ & Hesp & _).
  assert (Recinto.temOutrasEspecies recinto (Js.Str nome) = true) as Hminusculas.
  { unfold Recinto.temOutrasEspecies, Js.has. rewrite Hlista, size_singleton.
    rewrite (bool_decide_eq_true_2 (1 = 1)%nat) by done.
    rewrite (bool_decide_eq_false_2 (nome ∈ _)); [by rewrite orb_true_r|].
    intros ?%elem_of_singleton. congruence. }
  assert (Recinto.temOutrasEspecies recinto (Js.Str (LoteAnimal.especie lote)) = false)
    as Hmaiusculas.
  { unfold Recinto.temOutrasEspecies, Js.has. rewrite Hlista, size_singleton.
    rewrite (bool_decide_eq_false_2 (1 < 1)%nat) by lia.
    rewrite (bool_decide_eq_true_2 (_ ∈ _)); [done|]. by apply elem_of_singleton. }
  split; apply viaveis_elem_of; exists recinto; (split; [done|]); (split; [done|]);
    unfold Recinto.getEspacoDisponivel.
  - by rewrite Hminusculas.
  - by rewrite Hmaiusculas.
Qed.

Lemma nome_fora_de_maiusculas_witness :
  RecintosZoo.opcao recinto1 (10 - 3 - 1 - 1 * 2)
  ∈ viaveis (Js.Str "macaco") (LoteAnimal.novoMacaco 2)
      (RecintosZoo.listaRecintos zooInicial)
  ∧ RecintosZoo.opcao recinto1 (10 - 3 - 1 * 2)
    ∈ viaveis (Js.Str "MACACO") (LoteAnimal.novoMacaco 2)
        (RecintosZoo.listaRecintos zooInicial).
Proof.
  apply (nome_fora_de_maiusculas "macaco" (Js.Number 2) (LoteAnimal.novoMacaco 2)
           recinto1 (RecintosZoo.listaRecintos zooInicial)).
  - reflexivity.
  - discriminate.
  - apply list_elem_of_lookup. exists 0%nat. reflexivity.
  - reflexivity.
  - reflexivity.
Defined.

(** ** Fewer animals of the same batch *)

Lemma estaConfortavel_true lote recinto :
  Recinto.estaConfortavel lote recinto = true
  ↔ cabe lote recinto = true
    ∧ (LoteAnimal.classe lote = LoteAnimal.Macaco → ¬ macacoSozinho lote recinto)
    ∧ (LoteAnimal.classe lote = LoteAnimal.Hipopotamo →
       Recinto.temOutrasEspecies recinto (Js.Str (LoteAnimal.especie lote)) = true →
       LoteAnimal.toleraOutrasEspecies (Recinto.biomas recinto) = true).
Proof.
  unfold macacoSozinho. rewrite <- !Qeq_bool_iff.
  unfold Recinto.estaConfortavel, Recinto.estaConfortavel_LoteAnimal,
    Recinto.estaConfortavel_Macaco, Recinto.estaConfortavel_Hipopotamo.
  fold (cabe lote recinto).
  destruct (cabe lote recinto).
  2: { split; [by destruct (LoteAnimal.classe lote) | by intros [? _]]. }
  destruct (LoteAnimal.classe lote);
    try (split; [intros _; repeat split; discriminate | reflexivity]).
  - destruct (Qeq_bool (LoteAnimal.qtdeLote lote) 1),
             (Qeq_bool (Recinto.getEspacoDisponivel recinto _) _); simpl;
      intuition congruence.
  - destruct (Recinto.temOutrasEspecies recinto _),
             (LoteAnimal.toleraOutrasEspecies _); intuition congruence.
Qed.

(** X14: an enclosure that accepts a batch accepts the batch of the same
    species with a smaller count, provided the unit size is not negative
    and the smaller batch is not a single monkey in front of an enclosure
    whose free space is its total capacity. *)
Theorem menos_animais_tambem_cabem (lote : LoteAnimal.t) (q : Q) (recinto : Recinto.t) :
  0 <= LoteAnimal.tamanho lote →
  q <= LoteAnimal.qtdeLote lote →
  ¬ macacoSozinho (com_qtdeLote q lote) recinto →
  Recinto.consegueAcomodarLote recinto lote = true →
  Recinto.consegueAcomodarLote recinto (com_qtdeLote q lote) = true.
Proof.
  intros Htamanho Hq Hsozinho.
  rewrite !consegueAcomodarLote_true, !estaConfortavel_true.
  intros ((Hcabe & _ & Hhipo) & Hresto).
  split; [|exact Hresto].
  split; [|split; [done|exact Hhipo]].
  unfold cabe in *. apply andb_true_iff in Hcabe as [Hbioma Hespaco].
  apply andb_true_iff. split; [exact Hbioma|].
  apply verificaEspacoSuficente_true in Hespaco.
  apply verificaEspacoSuficente_true. simpl.
  eapply Qle_trans; [|exact Hespaco].
  rewrite !(Qmult_comm (LoteAnimal.tamanho lote)).
  by apply Qmult_le_compat_r.
Qed.

Lemma menos_animais_tambem_cabem_witness :
  Recinto.consegueAcomodarLote recinto3 (com_qtdeLote 1 (LoteAnimal.novoGazela 2)) = true.
Proof.
  apply (menos_animais_tambem_cabem (LoteAnimal.novoGazela 2) 1 recinto3).
  - discriminate.
  - discriminate.
  - intros (Hclasse & _). discriminate Hclasse.
  - reflexivity.
Defined.

(** ** What a viable enclosure always offers *)

(** X15: every enclosure in the viable set has one of the habitats of the
    batch, and the space of the batch does not exceed its total capacity
    minus its occupied space, whatever the class of the batch. *)
Theorem recinto_viavel_tem_bioma_e_espaco
    (animal : Js.Value) (lote : LoteAnimal.t) (recintos : list Recinto.t)
    (recinto : Recinto.t) :
  viavel animal lote recintos recinto →
  (∃ bioma, bioma ∈ LoteAnimal.biomas lote ∧ bioma ∈ Recinto.biomas recinto)
  ∧ LoteAnimal.tamanhoLote lote
    <= Recinto.tamanhoTotal recinto - Recinto.tamanhoOcupado recinto.
Proof.
  intros [_ Hconsegue]%viavel_consegueAcomodarLote. split.
  - apply consegueAcomodarLote_true in Hconsegue as (Hconf%estaConfortavel_cabe & _).
    unfold cabe in Hconf. apply andb_true_iff in Hconf as [Hbioma _].
    by apply verificaBiomaAdequado_desde_true in Hbioma.
  - apply consegueAcomodarLote_espaco in Hconsegue.
    destruct (getEspacoDisponivel_limites recinto (Js.Str (LoteAnimal.especie lote))).
    lra.
Qed.

Lemma recinto_viavel_tem_bioma_e_espaco_witness :
  (∃ bioma, bioma ∈ LoteAnimal.biomas (LoteAnimal.novoHipopotamo 1)
            ∧ bioma ∈ Recinto.biomas recinto4)
  ∧ LoteAnimal.tamanhoLote (LoteAnimal.novoHipopotamo 1)
    <= Recinto.tamanhoTotal recinto4 - Recinto.tamanhoOcupado recinto4.
Proof.
  apply (recinto_viavel_tem_bioma_e_espaco (Js.Str "HIPOPOTAMO")
           (LoteAnimal.novoHipopotamo 1) (RecintosZoo.listaRecintos zooInicial) recinto4).
  apply viavel_consegueAcomodarLote. split.
  - apply list_elem_of_lookup. exists 3%nat. reflexivity.
  - reflexivity.
Defined.

(** X16: in every enclosure the program can build, a batch is accepted
    beside a resident batch, when one of the two is carnivorous, only if
    both are of the same species. *)
Theorem carnivoros_so_recebem_a_propria_especie
    (P : LoteAnimal.t → Prop) (recinto : Recinto.t) (lote residente : LoteAnimal.t) :
  alcancavel P recinto →
  residente ∈ Recinto.animaisExistentes recinto →
  LoteAnimal.isCarnivoro lote = true ∨ LoteAnimal.isCarnivoro residente = true →
  Recinto.consegueAcomodarLote recinto lote = true →
  LoteAnimal.especie residente = LoteAnimal.especie lote.
Proof.
  intros Halc Hres Hcarn (_ & _ & Hfora & Hentra)%consegueAcomodarLote_true.
  pose proof (alcancavel_listaEspecies P recinto Halc) as Hlista.
  pose proof (alcancavel_flagContemCarnivoros P recinto Halc) as Hflag.
  assert (LoteAnimal.especie residente ∈ Recinto.listaEspecies recinto) as Hdentro.
  { rewrite Hlista. apply elem_of_list_to_set, list_elem_of_fmap. eauto. }
  assert (Recinto.flagContemCarnivoros recinto = true) as Htem.
  { destruct Hcarn as [Hlote | Hresidente].
    - destruct (Recinto.flagContemCarnivoros recinto); [reflexivity|].
      destruct Hentra. repeat split; [done|].
      destruct (size (Recinto.listaEspecies recinto)) eqn:Hsize; [|lia].
      apply size_empty_iff in Hsize.
      exfalso. apply (not_elem_of_empty (C:=gset string) (LoteAnimal.especie residente)).
      by rewrite <- Hsize.
    - apply Hflag. by exists residente. }
  pose proof (carnivoros_uma_especie P recinto Halc Htem) as Hum.
  apply (size_singleton_inv _ _ _ Hum); [done|].
  destruct (decide (LoteAnimal.especie lote ∈ Recinto.listaEspecies recinto)); [done|].
  by destruct Hfora.
Qed.

Lemma carnivoros_so_recebem_a_propria_especie_witness :
  LoteAnimal.especie (LoteAnimal.novoLeao 1) = LoteAnimal.especie (LoteAnimal.novoLeao 2).
Proof.
  apply (carnivoros_so_recebem_a_propria_especie doCatalogo recinto5
           (LoteAnimal.novoLeao 2) (LoteAnimal.novoLeao 1)).
  - exact alcancavel_recinto5.
  - apply list_elem_of_lookup. exists 0%nat. reflexivity.
  - left. reflexivity.
  - reflexivity.
Defined.
